(** * jumper: a directory bookmarking utility (s3bw/jumper, main.go)

    A shallow embedding of [main.go] and of the parts of the Go standard
    library it calls ([strconv.Atoi], [filepath.Base], [strings.TrimSpace],
    [bufio.Scanner] with the default [ScanLines] split function), followed
    by the properties of the bookmark store and of token resolution.

    Go strings are byte sequences; they are modelled as [string], whose
    characters ([ascii]) are exactly the 256 byte values.

    The four verbs that work on the bookmark list are embedded
    ([addFolder], [jumpToFolder], [listFolders], [removeFolder], with
    [readFolderList]); each is a function of the state of the config file
    and returns what the run writes, its exit status and, for the verbs
    that write, the state of the file afterwards.  [main] and
    [setupJumper] are embedded over a record of what they see of the
    machine; [filepath.Join] is a parameter there. *)

From Stdlib Require Import ZArith NArith List Bool Lia Ascii String.
From Stdlib Require Import DecimalString DecimalPos DecimalN.
Import ListNotations.

Open Scope string_scope.
Open Scope Z_scope.

(** ** Byte strings *)

Definition nl : ascii := "010"%char.
Definition cr : ascii := "013"%char.

(** [s + "\n"] *)
Definition endl (s : string) : string := s ++ String nl "".

Fixpoint strRev_onto (s acc : string) : string :=
  match s with
  | "" => acc
  | String c s' => strRev_onto s' (String c acc)
  end.

Definition strRev (s : string) : string := strRev_onto s "".

(** [c] occurs among the bytes of [s]. *)
Fixpoint occurs (c : ascii) (s : string) : bool :=
  match s with
  | "" => false
  | String d s' => Ascii.eqb d c || occurs c s'
  end.

Definition len {A} (l : list A) : Z := Z.of_nat (List.length l).

(** ** strconv *)

Module strconv.

(** The platform's [int] is taken to be 64 bits wide. *)
Definition intSize : Z := 64.
Definition maxInt : Z := 2 ^ (intSize - 1) - 1.
Definition minInt : Z := - 2 ^ (intSize - 1).

Definition isDigit (ch : ascii) : bool :=
  (48 <=? N_of_ascii ch)%N && (N_of_ascii ch <=? 57)%N.

Definition digitVal (ch : ascii) : Z := Z.of_N (N_of_ascii ch) - 48.

(** The digit loop [n = n*10 + int(ch - '0')]; a byte outside ['0'..'9']
    is a syntax error. *)
Fixpoint digits (s : string) (n : Z) : option Z :=
  match s with
  | "" => Some n
  | String ch s' =>
      if isDigit ch then digits s' (n * 10 + digitVal ch) else None
  end.

(** [strconv.Atoi]: an optional sign followed by one or more decimal
    digits, the value lying in the range of [int].  [None] stands for a
    non-nil error (syntax or range); the callers in main.go only test
    [err == nil]. *)
Definition Atoi (s : string) : option Z :=
  match s with
  | "" => None
  | String c rest =>
      let neg := Ascii.eqb c "-" in
      let body := if Ascii.eqb c "-" || Ascii.eqb c "+" then rest else s in
      match body with
      | "" => None
      | _ =>
          match digits body 0 with
          | None => None
          | Some un =>
              let n := if neg then - un else un in
              if (minInt <=? n) && (n <=? maxInt) then Some n else None
          end
      end
  end.

(** [%d] of a non-negative integer. *)
Definition Itoa (n : Z) : string :=
  NilEmpty.string_of_uint (N.to_uint (Z.to_N n)).

End strconv.

(** ** path/filepath (Unix: separator ['/'], no volume names) *)

Module filepath.

Definition Separator : ascii := "/"%char.
Definition IsPathSeparator (c : ascii) : bool := Ascii.eqb c Separator.

Fixpoint dropSeparators (s : string) : string :=
  match s with
  | "" => ""
  | String c s' => if IsPathSeparator c then dropSeparators s' else s
  end.

Fixpoint upToSeparator (s : string) : string :=
  match s with
  | "" => ""
  | String c s' => if IsPathSeparator c then "" else String c (upToSeparator s')
  end.

(** [filepath.Base]: the last element of [path].  Trailing separators
    are removed first; the empty path gives ["."], a path of separators
    only gives ["/"].  Both loops of the Go function run from the end of
    the path, so they are written over the reversed string. *)
Definition Base (path : string) : string :=
  if String.eqb path "" then "."
  else
    let stripped := dropSeparators (strRev path) in
    let last := strRev (upToSeparator stripped) in
    if String.eqb last "" then String Separator "" else last.

End filepath.

(** ** Process results *)

Definition error := string.

Inductive result (A : Type) : Type :=
| Ok (a : A)
| Err (e : error).
Arguments Ok {A} a.
Arguments Err {A} e.

(** What one run of the program leaves behind: the bytes written to the
    two streams and the exit status. *)
Record Process := mkProcess {
  stdout : string;
  stderr : string;
  exitCode : Z
}.

(** [fmt.Print(s)] / [fmt.Printf] to standard output, then [return]. *)
Definition printed (s : string) : Process := mkProcess s "" 0.
(** [os.Exit(1)] with nothing written. *)
Definition silentExit : Process := mkProcess "" "" 1.
(** [fmt.Fprintf(os.Stderr, msg)] followed by [os.Exit(1)]. *)
Definition die (msg : string) : Process := mkProcess "" msg 1.
(** A run-time panic (index out of range): exit status 2. *)
Definition panic : Process :=
  mkProcess "" "panic: runtime error: index out of range" 2.

(** An index expression [folders[i]]. *)
Definition index (folders : list string) (i : Z) : option string :=
  if i <? 0 then None else nth_error folders (Z.to_nat i).

(** ** jumpToFolder, after the list has been read (main.go 115-129) *)

(** The loop of lines 122-127. *)
Fixpoint jumpScan (folders : list string) (arg : string) : Process :=
  match folders with
  | [] => silentExit
  | folder :: rest =>
      if String.eqb (filepath.Base folder) arg || String.eqb folder arg
      then printed folder
      else jumpScan rest arg
  end.

Definition jumpIn (folders : list string) (arg : string) : Process :=
  match strconv.Atoi arg with
  | Some num =>
      if (0 <? num) && (num <=? len folders) then
        match index folders (num - 1) with
        | Some folder => printed folder
        | None => panic
        end
      else jumpScan folders arg
  | None => jumpScan folders arg
  end.

(** ** The matching code of removeFolder (main.go 281-294) *)

(** The loop of lines 288-293; [i] is the loop index, [-1] the initial
    value of [indexToRemove]. *)
Fixpoint removeScan (folders : list string) (arg : string) (i : Z) : Z :=
  match folders with
  | [] => -1
  | folder :: rest =>
      if String.eqb (filepath.Base folder) arg || String.eqb folder arg
      then i
      else removeScan rest arg (i + 1)
  end.

Definition indexToRemove (folders : list string) (arg : string) : Z :=
  match strconv.Atoi arg with
  | Some num =>
      if (0 <? num) && (num <=? len folders) then num - 1
      else removeScan folders arg 0
  | None => removeScan folders arg 0
  end.

(** ** strings and unicode *)

Module strings.

(** [strings.asciiSpace]: tab, newline, vertical tab, form feed,
    carriage return, space. *)
Definition asciiSpace (c : ascii) : bool :=
  match N_of_ascii c with
  | 9 | 10 | 11 | 12 | 13 | 32 => true
  | _ => false
  end%N.

Definition byteIs (c : ascii) (n : N) : bool := (N_of_ascii c =? n)%N.
Definition within (c : ascii) (lo hi : N) : bool :=
  ((lo <=? N_of_ascii c) && (N_of_ascii c <=? hi))%N.

(** The white-space runes of [unicode.IsSpace] above U+007F, by their
    UTF-8 encodings.  Two bytes: U+0085 (C2 85), U+00A0 (C2 A0). *)
Definition space2 (b1 b2 : ascii) : bool :=
  byteIs b1 194 && (byteIs b2 133 || byteIs b2 160).

(** Three bytes: U+1680 (E1 9A 80), U+2000..U+200A (E2 80 80..8A),
    U+2028, U+2029 (E2 80 A8, A9), U+202F (E2 80 AF), U+205F (E2 81 9F),
    U+3000 (E3 80 80). *)
Definition space3 (b1 b2 b3 : ascii) : bool :=
  (byteIs b1 225 && byteIs b2 154 && byteIs b3 128)
  || (byteIs b1 226 && byteIs b2 128
      && (within b3 128 138 || byteIs b3 168 || byteIs b3 169 || byteIs b3 175))
  || (byteIs b1 226 && byteIs b2 129 && byteIs b3 159)
  || (byteIs b1 227 && byteIs b2 128 && byteIs b3 128).

Section Runes.
(** The two tables are parameters so that the same loop serves the
    scan from the front and, on the reversed string with the byte
    order of each encoding reversed, the scan from the back. *)
Variable w2 : ascii -> ascii -> bool.
Variable w3 : ascii -> ascii -> ascii -> bool.

(** Width in bytes of the white-space rune [s] begins with, 0 when it
    begins with none.  A rune decodes to a white-space code point
    exactly when its bytes are one of the encodings above (the decoder
    rejects over-long forms and yields U+FFFD on invalid input). *)
Definition spaceWidth (s : string) : nat :=
  match s with
  | String c1 s1 =>
      if asciiSpace c1 then 1%nat
      else
        match s1 with
        | String c2 s2 =>
            if w2 c1 c2 then 2%nat
            else
              match s2 with
              | String c3 _ => if w3 c1 c2 c3 then 3%nat else 0%nat
              | "" => 0%nat
              end
        | "" => 0%nat
        end
  | "" => 0%nat
  end.

(** Drop white-space runes until the first rune that is not one. *)
Fixpoint dropSpaces (s : string) : string :=
  match s with
  | String c1 s1 =>
      if asciiSpace c1 then dropSpaces s1
      else
        match s1 with
        | String c2 s2 =>
            if w2 c1 c2 then dropSpaces s2
            else
              match s2 with
              | String c3 s3 => if w3 c1 c2 c3 then dropSpaces s3 else s
              | "" => s
              end
        | "" => s
        end
  | "" => ""
  end.
End Runes.

Definition space2r (b2 b1 : ascii) : bool := space2 b1 b2.
Definition space3r (b3 b2 b1 : ascii) : bool := space3 b1 b2 b3.

(** [TrimLeftFunc(s, unicode.IsSpace)] *)
Definition trimLeft (s : string) : string := dropSpaces space2 space3 s.

(** [TrimRightFunc(s, unicode.IsSpace)] *)
Definition trimRight (s : string) : string :=
  strRev (dropSpaces space2r space3r (strRev s)).

(** [strings.TrimSpace]: all leading and trailing white space removed.
    The ASCII fast path of the Go function and its fall-back
    [TrimFunc(s, unicode.IsSpace)] compute the same slice. *)
Definition TrimSpace (s : string) : string := trimRight (trimLeft s).

(** [s] begins, respectively ends, with a white-space rune. *)
Definition leadingSpace (s : string) : bool :=
  negb (spaceWidth space2 space3 s =? 0)%nat.
Definition trailingSpace (s : string) : bool :=
  negb (spaceWidth space2r space3r (strRev s) =? 0)%nat.

(** [strings.Contains(s, substr)]: [substr] occurs in [s] at some offset;
    the empty string occurs in every string. *)
Fixpoint Contains (s substr : string) : bool :=
  String.prefix substr s
  || match s with
     | "" => false
     | String _ s' => Contains s' substr
     end.

End strings.

(** ** bufio.Scanner with the ScanLines split function *)

Module bufio.

Definition MaxScanTokenSize : nat := (64 * 1024)%nat.
Definition ErrTooLong : error := "bufio.Scanner: token too long".

(** [bytes.IndexByte(data, c)] *)
Fixpoint IndexByte (data : string) (c : ascii) : option nat :=
  match data with
  | "" => None
  | String d rest =>
      if Ascii.eqb d c then Some 0%nat
      else option_map S (IndexByte rest c)
  end.

(** [data[:n]] and [data[n:]] *)
Fixpoint sliceTo (n : nat) (data : string) : string :=
  match n, data with
  | S n', String d rest => String d (sliceTo n' rest)
  | _, _ => ""
  end.

Fixpoint sliceFrom (n : nat) (data : string) : string :=
  match n, data with
  | S n', String _ rest => sliceFrom n' rest
  | _, _ => data
  end.

(** [dropCR]: one trailing carriage return is removed. *)
Fixpoint dropCR (data : string) : string :=
  match data with
  | "" => ""
  | String d "" => if Ascii.eqb d cr then "" else data
  | String d rest => String d (dropCR rest)
  end.

Inductive Scanned : Type :=
| Token (text : string) (rest : string)
| EOF
| Failed (err : error).

(** One call of [Scan] on a scanner whose reader still has [input] to
    deliver.  A line is a token when it fits, with its newline, in the
    buffer of [MaxScanTokenSize] bytes; a final line without a newline
    is a token when the buffer still has room for the read that reports
    the end of the file.  Otherwise the scanner stops with
    [ErrTooLong]. *)
Definition Scan (input : string) : Scanned :=
  match input with
  | "" => EOF
  | _ =>
      match IndexByte input nl with
      | Some i =>
          if (i <? MaxScanTokenSize)%nat
          then Token (dropCR (sliceTo i input)) (sliceFrom (S i) input)
          else Failed ErrTooLong
      | None =>
          if (String.length input <? MaxScanTokenSize)%nat
          then Token (dropCR input) ""
          else Failed ErrTooLong
      end
  end.

End bufio.

(** ** The config file *)

(** The state of [~/.jumper/folders]: its bytes, and which of the system
    calls main.go makes on it fail (with which error). *)
Record File := mkFile {
  contents : string;
  openErr : option error;    (* os.Open *)
  appendErr : option error;  (* os.OpenFile(O_APPEND|O_WRONLY) *)
  createErr : option error;  (* os.Create *)
  writeErr : option error    (* file.WriteString *)
}.

Definition setContents (f : File) (s : string) : File :=
  mkFile s (openErr f) (appendErr f) (createErr f) (writeErr f).

(** [file.WriteString(s)] on a descriptor that appends. *)
Definition WriteString (f : File) (s : string) : result File :=
  match writeErr f with
  | Some e => Err e
  | None => Ok (setContents f (contents f ++ s))
  end.

(** [os.Create]: the file is truncated. *)
Definition Create (f : File) : result File :=
  match createErr f with
  | Some e => Err e
  | None => Ok (setContents f "")
  end.

(** ** readFolderList (main.go 152-173) *)

Import bufio (Scanned(..)).

(** The loop [for scanner.Scan() { ... }] of lines 161-166, followed by
    the test of [scanner.Err()]: [input] is what the scanner has not yet
    consumed, [folders] the slice built so far.  Every token consumes at
    least one byte of [input], so a [fuel] above its length is never used
    up (lemma [scanLoop_fuel] below). *)
Fixpoint scanLoop (fuel : nat) (input : string) (folders : list string)
  : result (list string) :=
  match fuel with
  | O => Err "scanLoop: out of fuel"
  | S fuel' =>
      match bufio.Scan input with
      | Token text rest =>
          let line := strings.TrimSpace text in
          scanLoop fuel' rest
            (if negb (String.eqb line "") then folders ++ [line] else folders)
      | EOF => Ok folders
      | Failed err => Err err
      end
  end.

Definition readFolderList (f : File) : result (list string) :=
  match openErr f with
  | Some err => Err err
  | None => scanLoop (S (String.length (contents f))) (contents f) []
  end.

(** ** jumpToFolder (main.go 109-130) *)

Definition jumpToFolder (f : File) (arg : string) : Process :=
  match readFolderList f with
  | Err _ => silentExit
  | Ok folders => jumpIn folders arg
  end.

(** ** listFolders (main.go 133-149) *)

(** The loop of lines 146-148, [i] being the loop index. *)
Fixpoint listLoop (folders : list string) (i : Z) : string :=
  match folders with
  | [] => ""
  | folder :: rest =>
      (strconv.Itoa (i + 1) ++ ". " ++ endl folder) ++ listLoop rest (i + 1)
  end.

Definition listFolders (f : File) : Process :=
  match readFolderList f with
  | Err err => die ("Error reading folder list: " ++ endl err)
  | Ok folders =>
      if len folders =? 0 then
        printed (endl ("No folders in jump list. "
                       ++ "Use 'jumper add' to add the current folder."))
      else
        printed (endl "Available folders:" ++ listLoop folders 0)
  end.

(** ** addFolder (main.go 70-106) *)

(** The loop of lines 85-90: is [currentDir] one of [folders]? *)
Fixpoint alreadyListed (folders : list string) (currentDir : string) : bool :=
  match folders with
  | [] => false
  | folder :: rest =>
      if String.eqb folder currentDir then true
      else alreadyListed rest currentDir
  end.

(** [getwd] is the result of [os.Getwd()].  The run leaves the config
    file in the state returned with the process. *)
Definition addFolder (getwd : result string) (f : File) : Process * File :=
  match getwd with
  | Err err => (die ("Error getting current directory: " ++ endl err), f)
  | Ok currentDir =>
      match readFolderList f with
      | Err err => (die ("Error reading folder list: " ++ endl err), f)
      | Ok folders =>
          if alreadyListed folders currentDir then
            (printed ("Current folder already in the list: "
                      ++ endl currentDir), f)
          else
            match appendErr f with
            | Some err => (die ("Error opening config file: " ++ endl err), f)
            | None =>
                match WriteString f (endl currentDir) with
                | Err err =>
                    (die ("Error writing to config file: " ++ endl err), f)
                | Ok f' =>
                    (printed ("Added current folder to jump list: "
                              ++ endl currentDir), f')
                end
            end
      end
  end.

(** ** removeFolder (main.go 269-321) *)

(** [append(folders[:i], folders[i+1:]...)] *)
Definition removeAt (folders : list string) (i : Z) : list string :=
  firstn (Z.to_nat i) folders ++ skipn (Z.to_nat (i + 1)) folders.

(** The loop of lines 313-318: the first failing write ends the run. *)
Fixpoint writeLoop (folders : list string) (f : File) : option error * File :=
  match folders with
  | [] => (None, f)
  | folder :: rest =>
      match WriteString f (endl folder) with
      | Err err => (Some err, f)
      | Ok f' => writeLoop rest f'
      end
  end.

Definition removeFolder (f : File) (arg : string) : Process * File :=
  match readFolderList f with
  | Err err => (die ("Error reading folder list: " ++ endl err), f)
  | Ok folders =>
      if len folders =? 0 then (printed (endl "No folders in jump list."), f)
      else
        let indexToRemove := indexToRemove folders arg in
        if indexToRemove =? -1 then
          (die ("Folder not found: " ++ endl arg), f)
        else
          match index folders indexToRemove with
          | None => (panic, f)
          | Some removedFolder =>
              let folders' := removeAt folders indexToRemove in
              match Create f with
              | Err err => (die ("Error opening config file: " ++ endl err), f)
              | Ok f0 =>
                  match writeLoop folders' f0 with
                  | (Some err, f1) =>
                      (die ("Error writing to config file: " ++ endl err), f1)
                  | (None, f1) =>
                      (printed ("Removed folder: " ++ endl removedFolder), f1)
                  end
              end
          end
  end.

(** ** Vocabulary of the specification *)

(** A token matches an entry by base name or by full path. *)
Definition matches (arg folder : string) : Prop :=
  filepath.Base folder = arg \/ folder = arg.

(** The token is a number that indexes the list (1-based). *)
Definition numeric (arg : string) (folders : list string) (n : Z) : Prop :=
  strconv.Atoi arg = Some n /\ 1 <= n <= len folders.

(** The lines of a text: the pieces between newlines; a last piece that
    is empty (the text is empty or ends with a newline) is no line. *)
Fixpoint splitLines (s : string) : list string :=
  match s with
  | "" => []
  | String c s' =>
      if Ascii.eqb c nl then "" :: splitLines s'
      else
        match splitLines s' with
        | [] => [String c ""]
        | l :: ls => String c l :: ls
        end
  end.

(** A line is kept when it is not blank. *)
Definition keep (l : string) : bool := negb (String.eqb l "").

(** [loadAll] as section 4.1 words it: the lines in order, each trimmed,
    the blank ones discarded. *)
Definition loadAll (content : string) : list string :=
  filter keep (map strings.TrimSpace (splitLines content)).

(** Every line fits the scanner's buffer. *)
Definition fitsBuffer (s : string) : bool :=
  (String.length s <? bufio.MaxScanTokenSize)%nat.

(** [rewrite] as section 4.1 words it and as lines 313-318 do it: each
    path followed by a newline, in order. *)
Fixpoint rewritten (paths : list string) : string :=
  match paths with
  | [] => ""
  | p :: rest => endl p ++ rewritten rest
  end.

(** A stored entry as the data model wants it: not empty, no newline
    inside, no white space at either end. *)
Definition trimmed (s : string) : Prop :=
  s <> "" /\ occurs nl s = false
  /\ strings.leadingSpace s = false /\ strings.trailingSpace s = false.

(** The file is empty or its last line is terminated. *)
Definition terminated (s : string) : Prop :=
  s = "" \/ exists s', s = endl s'.

(** A config file on which every system call succeeds. *)
Definition healthy (f : File) : Prop :=
  openErr f = None /\ appendErr f = None
  /\ createErr f = None /\ writeErr f = None.

Definition file (s : string) : File := mkFile s None None None None.

(** [resolve] as section 4.2 words it: the element at position [n-1] for
    a token that parses as an integer [n] with [1 <= n <= length list];
    else the first entry, in order, whose base name or full path equals
    the token; else nothing. *)
Fixpoint firstMatch (token : string) (list : list string) (i : Z)
  : option (Z * string) :=
  match list with
  | [] => None
  | p :: rest =>
      if String.eqb (filepath.Base p) token || String.eqb p token
      then Some (i, p)
      else firstMatch token rest (i + 1)
  end.

Definition resolve (token : string) (list : list string)
  : option (Z * string) :=
  match strconv.Atoi token with
  | Some n =>
      if (1 <=? n) && (n <=? len list) then
        option_map (fun p => (n - 1, p)) (nth_error list (Z.to_nat (n - 1)))
      else firstMatch token list 0
  | None => firstMatch token list 0
  end.

(** The listing as section 4.3 words it: each path prefixed with its
    1-based index, one per line, in stored order. *)
Definition numberedLine (ip : nat * string) : string :=
  endl (strconv.Itoa (Z.of_nat (fst ip)) ++ ". " ++ snd ip).

Definition numbered (folders : list string) : list string :=
  map numberedLine (combine (seq 1 (List.length folders)) folders).

Definition joined (lines : list string) : string :=
  fold_right append "" lines.

(** [n] copies of the byte [c]. *)
Fixpoint replicate (n : nat) (c : ascii) : string :=
  match n with
  | O => ""
  | S n' => String c (replicate n' c)
  end.

(** A path of twice [MaxScanTokenSize] bytes. *)
Definition longPath : string := replicate (2 * bufio.MaxScanTokenSize) "a".

(** ** setupJumper (main.go 176-266) and main (main.go 17-67) *)

Definition dq : string := String "034" "".

(** The script of lines 177-215. *)
Definition jumperScript : string :=
  endl "#!/bin/bash"
  ++ endl ""
  ++ endl "# Function to jump to a folder"
  ++ endl "jp() {"
  ++ endl ("    if [ -z " ++ dq ++ "$1" ++ dq ++ " ]; then")
  ++ endl "        jumper list"
  ++ endl "        return"
  ++ endl "    fi"
  ++ endl "    "
  ++ endl ("    local target=$(jumper " ++ dq ++ "$1" ++ dq ++ ")")
  ++ endl "    if [ $? -eq 0 ]; then"
  ++ endl ("        cd " ++ dq ++ "$target" ++ dq)
  ++ endl "    fi"
  ++ endl "}"
  ++ endl ""
  ++ endl "# Bash completion for jp"
  ++ endl "_jp_complete() {"
  ++ endl "    local cur prev"
  ++ endl "    COMPREPLY=()"
  ++ endl ("    cur=" ++ dq ++ "${COMP_WORDS[COMP_CWORD]}" ++ dq)
  ++ endl ("    prev=" ++ dq ++ "${COMP_WORDS[COMP_CWORD-1]}" ++ dq)
  ++ endl "    "
  ++ endl ("    if [ " ++ dq ++ "$prev" ++ dq ++ " = " ++ dq ++ "jumper" ++ dq ++ " ]; then")
  ++ endl ("        COMPREPLY=( $(compgen -W " ++ dq ++ "add list remove setup" ++ dq ++ " -- " ++ dq ++ "$cur" ++ dq ++ ") )")
  ++ endl ("    elif [ " ++ dq ++ "$prev" ++ dq ++ " = " ++ dq ++ "remove" ++ dq ++ " ]; then")
  ++ endl "        # Get folder names for remove command"
  ++ endl ("        local folders=$(jumper list | grep -v " ++ dq ++ "Available folders:" ++ dq ++ " | sed 's/^[0-9]*\. \(.*\)$/\1/' | xargs -n1 basename)")
  ++ endl ("        COMPREPLY=( $(compgen -W " ++ dq ++ "$folders" ++ dq ++ " -- " ++ dq ++ "$cur" ++ dq ++ ") )")
  ++ endl ("    elif [ " ++ dq ++ "$prev" ++ dq ++ " = " ++ dq ++ "jp" ++ dq ++ " ]; then")
  ++ endl "        # Get folder names for jp command"
  ++ endl ("        local folders=$(jumper list | grep -v " ++ dq ++ "Available folders:" ++ dq ++ " | sed 's/^[0-9]*\. \(.*\)$/\1/' | xargs -n1 basename)")
  ++ endl ("        COMPREPLY=( $(compgen -W " ++ dq ++ "$folders" ++ dq ++ " -- " ++ dq ++ "$cur" ++ dq ++ ") )")
  ++ endl "    fi"
  ++ endl "    "
  ++ endl "    return 0"
  ++ endl "}"
  ++ endl ""
  ++ endl "complete -F _jp_complete jp"
  ++ "complete -F _jp_complete jumper".

(** A shell init file in the home directory, by what the calls of
    [setupJumper] on it return. *)
Record RcFile := mkRc {
  rcPresent : bool;            (* os.Stat(rcPath) returns no error *)
  rcContent : string;
  rcReadErr : option error;    (* os.ReadFile *)
  rcOpenErr : option error;    (* os.OpenFile(O_APPEND|O_WRONLY) *)
  rcWriteErr : option error    (* f.WriteString *)
}.

Definition rcAppend (rc : RcFile) (s : string) : RcFile :=
  mkRc (rcPresent rc) (rcContent rc ++ s)
       (rcReadErr rc) (rcOpenErr rc) (rcWriteErr rc).

(** What the program sees of the machine: the results of the calls that
    do not depend on a file of its own, the config file, the script file
    and the files of the home directory by name. *)
Record System := mkSystem {
  userHomeDir : result string;   (* os.UserHomeDir() *)
  mkdirAllErr : option error;    (* os.MkdirAll(configDir, 0755) *)
  configPresent : bool;          (* os.Stat(configPath) is not "not exist" *)
  config : File;
  workingDir : result string;    (* os.Getwd() *)
  writeFileErr : option error;   (* os.WriteFile(scriptPath, ...) *)
  script : option string;        (* the bytes of jumper.sh, if it exists *)
  home : string -> RcFile
}.

Definition setConfig (sys : System) (f : File) : System :=
  mkSystem (userHomeDir sys) (mkdirAllErr sys) true f (workingDir sys)
           (writeFileErr sys) (script sys) (home sys).

Definition setScript (sys : System) (s : string) : System :=
  mkSystem (userHomeDir sys) (mkdirAllErr sys) (configPresent sys) (config sys)
           (workingDir sys) (writeFileErr sys) (Some s) (home sys).

Definition setHome (sys : System) (h : string -> RcFile) : System :=
  mkSystem (userHomeDir sys) (mkdirAllErr sys) (configPresent sys) (config sys)
           (workingDir sys) (writeFileErr sys) (script sys) h.

Definition update (h : string -> RcFile) (name : string) (rc : RcFile)
  : string -> RcFile :=
  fun n => if String.eqb n name then rc else h n.

Definition configDirName : string := ".jumper".
Definition configFileName : string := "folders".

(** [fmt.Sprintf("\n# Jumper configuration\nsource %s\n", scriptPath)] *)
Definition sourceCmd (scriptPath : string) : string :=
  String nl (endl "# Jumper configuration" ++ endl ("source " ++ scriptPath)).

(** The loop of lines 229-262 over the names still to try: what it
    prints on the two streams, and the home directory afterwards.
    [continue] goes on with the rest of the names, [break] stops. *)
Fixpoint rcLoop (scriptPath : string) (rcFiles : list string)
  (h : string -> RcFile) : (string * string) * (string -> RcFile) :=
  match rcFiles with
  | [] => (("", ""), h)
  | rcFile :: rest =>
      let continue (msg : string) :=
        let '((out, err), h') := rcLoop scriptPath rest h in
        ((out, msg ++ err), h') in
      if rcPresent (h rcFile) then
        match rcReadErr (h rcFile) with
        | Some err =>
            continue ("Error reading " ++ rcFile ++ ": " ++ endl err)
        | None =>
            if strings.Contains (rcContent (h rcFile)) scriptPath then
              (("Jumper configuration already exists in " ++ endl rcFile, ""),
               h)
            else
              match rcOpenErr (h rcFile) with
              | Some err =>
                  continue ("Error opening " ++ rcFile ++ ": " ++ endl err)
              | None =>
                  match rcWriteErr (h rcFile) with
                  | Some err =>
                      continue
                        ("Error writing to " ++ rcFile ++ ": " ++ endl err)
                  | None =>
                      (("Added jumper configuration to " ++ endl rcFile, ""),
                       update h rcFile
                         (rcAppend (h rcFile) (sourceCmd scriptPath)))
                  end
              end
        end
      else continue ""
  end.

Section Paths.
(** [filepath.Join] is left as it is found: nothing below depends on how
    two path elements are joined. *)
Variable Join : string -> string -> string.

Definition setupJumper (sys : System) (configDir homeDir : string)
  : Process * System :=
  let scriptPath := Join configDir "jumper.sh" in
  match writeFileErr sys with
  | Some err => (die ("Error creating jumper.sh: " ++ endl err), sys)
  | None =>
      let sys1 := setScript sys jumperScript in
      let '((out, err), h) :=
        rcLoop scriptPath [".bashrc"; ".bash_aliases"] (home sys1) in
      (mkProcess
         (out ++ endl "Setup complete! Please restart your shell or run:"
              ++ endl ("source " ++ scriptPath))
         err 0,
       setHome sys1 h)
  end.

(** The four verbs on the config file, as [main] calls them. *)
Definition onConfig (sys : System) (run : Process * File) : Process * System :=
  (fst run, setConfig sys (snd run)).

(** [args] is [os.Args[1:]]. *)
Definition main (sys : System) (args : list string) : Process * System :=
  match userHomeDir sys with
  | Err err => (die ("Error getting home directory: " ++ endl err), sys)
  | Ok homeDir =>
      let configDir := Join homeDir configDirName in
      match mkdirAllErr sys with
      | Some err =>
          (die ("Error creating config directory: " ++ endl err), sys)
      | None =>
          let ensured :=
            if configPresent sys then Ok (config sys)
            else Create (config sys) in
          match ensured with
          | Err err => (die ("Error creating config file: " ++ endl err), sys)
          | Ok f =>
              let sys1 := setConfig sys f in
              match args with
              | [] => (die (endl "Usage: jumper <command>"), sys1)
              | cmd :: rest =>
                  if String.eqb cmd "add" then
                    onConfig sys1 (addFolder (workingDir sys1) f)
                  else if String.eqb cmd "list" then
                    (listFolders f, sys1)
                  else if String.eqb cmd "setup" then
                    setupJumper sys1 configDir homeDir
                  else if String.eqb cmd "remove" then
                    match rest with
                    | [] =>
                        (die (endl
                           "Usage: jumper remove <folder-name-or-number>"),
                         sys1)
                    | arg :: _ => onConfig sys1 (removeFolder f arg)
                    end
                  else (jumpToFolder f cmd, sys1)
              end
          end
      end
  end.
End Paths.

(** A machine on which nothing fails: home directory [/home/u], working
    directory [wd], config file and script absent, no shell init file. *)
Definition noRc : RcFile := mkRc false "" None None None.
Definition freshSystem (wd : string) : System :=
  mkSystem (Ok "/home/u") None false (file "") (Ok wd) None None
           (fun _ => noRc).
Definition slashJoin (a b : string) : string := a ++ "/" ++ b.

(** * Properties *)

(** ** Token resolution *)

Lemma matches_eqb arg folder :
  String.eqb (filepath.Base folder) arg || String.eqb folder arg = true
  <-> matches arg folder.
Proof.
  unfold matches. rewrite orb_true_iff, !String.eqb_eq. reflexivity.
Qed.

Lemma matches_eqb_false arg folder :
  String.eqb (filepath.Base folder) arg || String.eqb folder arg = false
  <-> ~ matches arg folder.
Proof.
  rewrite <- matches_eqb. destruct (_ || _); intuition congruence.
Qed.

Lemma index_Some folders i :
  0 <= i < len folders -> exists p, index folders i = Some p.
Proof.
  unfold index, len. intros H.
  destruct (Z.ltb_spec i 0); [lia|].
  destruct (nth_error folders (Z.to_nat i)) eqn:E; [eauto|].
  apply nth_error_None in E. lia.
Qed.

Lemma index_nth_error folders i p :
  index folders i = Some p -> nth_error folders (Z.to_nat i) = Some p.
Proof. unfold index. destruct (i <? 0); [discriminate | trivial]. Qed.

Lemma jumpScan_first arg before f after :
  matches arg f ->
  (forall g, In g before -> ~ matches arg g) ->
  jumpScan (before ++ f :: after) arg = printed f.
Proof.
  intros Hf. induction before as [|g before IH]; intros Hb; simpl.
  - apply matches_eqb in Hf. rewrite Hf. reflexivity.
  - assert (Hg : ~ matches arg g) by (apply Hb; left; reflexivity).
    apply matches_eqb_false in Hg. rewrite Hg.
    apply IH. intros h Hh. apply Hb. right. exact Hh.
Qed.

Lemma jumpScan_none arg folders :
  (forall g, In g folders -> ~ matches arg g) ->
  jumpScan folders arg = silentExit.
Proof.
  induction folders as [|g folders IH]; intros H; simpl; [reflexivity|].
  assert (Hg : ~ matches arg g) by (apply H; left; reflexivity).
  apply matches_eqb_false in Hg. rewrite Hg.
  apply IH. intros h Hh. apply H. right. exact Hh.
Qed.

Lemma jumpIn_not_numeric arg folders :
  (forall n, ~ numeric arg folders n) ->
  jumpIn folders arg = jumpScan folders arg.
Proof.
  intros H. unfold jumpIn.
  destruct (strconv.Atoi arg) as [num|] eqn:E; [|reflexivity].
  destruct (Z.ltb_spec 0 num); [|reflexivity].
  destruct (Z.leb_spec num (len folders)); [|reflexivity].
  exfalso. apply (H num). split; [exact E | lia].
Qed.

Lemma indexToRemove_not_numeric arg folders :
  (forall n, ~ numeric arg folders n) ->
  indexToRemove folders arg = removeScan folders arg 0.
Proof.
  intros H. unfold indexToRemove.
  destruct (strconv.Atoi arg) as [num|] eqn:E; [|reflexivity].
  destruct (Z.ltb_spec 0 num); [|reflexivity].
  destruct (Z.leb_spec num (len folders)); [|reflexivity].
  exfalso. apply (H num). split; [exact E | lia].
Qed.

(** The two loops side by side: [removeScan] started at [i] returns [-1]
    exactly when [jumpScan] exits silently, and otherwise the position,
    counted from [i], of the entry that [jumpScan] prints; no entry
    before that position matches. *)
Lemma scans_agree arg folders i :
  0 <= i ->
  (removeScan folders arg i = -1 /\ jumpScan folders arg = silentExit)
  \/ (exists p,
        i <= removeScan folders arg i < i + len folders
        /\ nth_error folders (Z.to_nat (removeScan folders arg i - i)) = Some p
        /\ jumpScan folders arg = printed p
        /\ forall j g, (j < Z.to_nat (removeScan folders arg i - i))%nat ->
                       nth_error folders j = Some g -> ~ matches arg g).
Proof.
  revert i. induction folders as [|f folders IH]; intros i Hi; simpl.
  - left. split; reflexivity.
  - destruct (String.eqb (filepath.Base f) arg || String.eqb f arg) eqn:E.
    + right. exists f. unfold len. simpl List.length.
      rewrite Z.sub_diag. simpl. repeat split; try lia.
    + destruct (IH (i + 1)) as [[H1 H2] | [p [H1 [H2 [H3 H4]]]]]; [lia | |].
      * left. split; assumption.
      * right. exists p. unfold len in *. simpl List.length.
        replace (Z.to_nat (removeScan folders arg (i + 1) - i))
          with (S (Z.to_nat (removeScan folders arg (i + 1) - (i + 1))))
          by lia.
        simpl. repeat split; try lia; try assumption.
        intros [|j] g Hj Hg; simpl in Hg.
        -- injection Hg as <-. apply matches_eqb_false. exact E.
        -- apply (H4 j g); [lia | exact Hg].
Qed.

(** C1 (resolver contract).  For every token [arg] and every bookmark list
    [folders]: when [arg] parses as an integer [n] with
    [1 <= n <= length folders], [jumpToFolder] prints the element at
    position [n-1]; otherwise it prints the first entry, in list order,
    whose base name or whose full path equals [arg]; and when no entry
    matches, the outcome is not-found (nothing printed, exit status 1). *)
Theorem resolver_contract (arg : string) (folders : list string) :
  (forall n, numeric arg folders n ->
     exists p, nth_error folders (Z.to_nat (n - 1)) = Some p
               /\ jumpIn folders arg = printed p)
  /\ ((forall n, ~ numeric arg folders n) ->
      (forall before f after,
          folders = (before ++ f :: after)%list ->
          matches arg f ->
          (forall g, In g before -> ~ matches arg g) ->
          jumpIn folders arg = printed f)
      /\ ((forall g, In g folders -> ~ matches arg g) ->
          jumpIn folders arg = silentExit)).
Proof.
  split.
  - intros n [Hn Hr]. unfold jumpIn. rewrite Hn.
    destruct (Z.ltb_spec 0 n); [|lia].
    destruct (Z.leb_spec n (len folders)); [|lia]. simpl.
    destruct (index_Some folders (n - 1)) as [p Hp]; [lia|].
    rewrite Hp. exists p. split; [apply index_nth_error; exact Hp | reflexivity].
  - intros Hnum. rewrite (jumpIn_not_numeric _ _ Hnum). split.
    + intros before f after -> Hf Hb. apply jumpScan_first; assumption.
    + apply jumpScan_none.
Qed.

Lemma resolver_contract_witness :
  jumpIn ["/a/b"; "/c/d"] "1" = printed "/a/b"
  /\ jumpIn ["/a/b"; "/c/d"] "d" = printed "/c/d"
  /\ jumpIn ["/a/b"; "/c/d"] "/a/b" = printed "/a/b"
  /\ jumpIn ["/a/b"; "/c/d"] "99" = silentExit.
Proof.
  split; [|split; [|split]].
  - destruct (resolver_contract "1" ["/a/b"; "/c/d"]) as [H _].
    destruct (H 1) as [p [Hp Hj]].
    + split; [reflexivity | unfold len; simpl; lia].
    + simpl in Hp. injection Hp as <-. exact Hj.
  - destruct (resolver_contract "d" ["/a/b"; "/c/d"]) as [_ H].
    destruct H as [H _].
    + intros n [Hn _]. vm_compute in Hn. discriminate.
    + apply (H ["/a/b"] "/c/d" []).
      * reflexivity.
      * left. reflexivity.
      * intros g [<-|[]] [Hg|Hg]; vm_compute in Hg; discriminate.
  - destruct (resolver_contract "/a/b" ["/a/b"; "/c/d"]) as [_ H].
    destruct H as [H _].
    + intros n [Hn _]. vm_compute in Hn. discriminate.
    + apply (H [] "/a/b" ["/c/d"]).
      * reflexivity.
      * right. reflexivity.
      * intros g [].
  - destruct (resolver_contract "99" ["/a/b"; "/c/d"]) as [_ H].
    destruct H as [_ H].
    + intros n [Hn Hr]. vm_compute in Hn. injection Hn as <-.
      unfold len in Hr. simpl in Hr. lia.
    + apply H.
      intros g [<-|[<-|[]]] [Hg|Hg]; vm_compute in Hg; discriminate.
Defined.



(** ** Byte strings: append, reverse, occurrence *)

Lemma append_nil_r (s : string) : s ++ "" = s.
Proof. induction s; simpl; congruence. Qed.

Lemma append_assoc (a b c : string) : (a ++ b) ++ c = a ++ (b ++ c).
Proof. induction a; simpl; congruence. Qed.

Lemma length_append (a b : string) :
  String.length (a ++ b) = (String.length a + String.length b)%nat.
Proof. induction a; simpl; congruence. Qed.

Lemma length_zero (s : string) : String.length s = 0%nat -> s = "".
Proof. destruct s; [reflexivity | discriminate]. Qed.

Lemma strRev_onto_append (s acc : string) :
  strRev_onto s acc = strRev s ++ acc.
Proof.
  unfold strRev. revert acc.
  induction s as [|c s IH]; intros acc; simpl; [reflexivity|].
  rewrite (IH (String c "")), IH, append_assoc. reflexivity.
Qed.

Lemma strRev_cons (c : ascii) (s : string) :
  strRev (String c s) = strRev s ++ String c "".
Proof. unfold strRev at 1. simpl. apply strRev_onto_append. Qed.

Lemma strRev_append (a b : string) : strRev (a ++ b) = strRev b ++ strRev a.
Proof.
  induction a as [|c a IH]; simpl.
  - rewrite append_nil_r. reflexivity.
  - rewrite !strRev_cons, IH, append_assoc. reflexivity.
Qed.

Lemma strRev_involutive (s : string) : strRev (strRev s) = s.
Proof.
  induction s as [|c s IH]; [reflexivity|].
  rewrite strRev_cons, strRev_append, IH. reflexivity.
Qed.

Lemma length_strRev (s : string) : String.length (strRev s) = String.length s.
Proof.
  induction s as [|c s IH]; [reflexivity|].
  rewrite strRev_cons, length_append, IH. simpl. lia.
Qed.

Lemma occurs_append (c : ascii) (a b : string) :
  occurs c (a ++ b) = occurs c a || occurs c b.
Proof.
  induction a as [|d a IH]; simpl; [reflexivity|].
  rewrite IH, orb_assoc. reflexivity.
Qed.

Lemma occurs_strRev (c : ascii) (s : string) : occurs c (strRev s) = occurs c s.
Proof.
  induction s as [|d s IH]; [reflexivity|].
  rewrite strRev_cons, occurs_append, IH. simpl.
  rewrite orb_false_r. apply orb_comm.
Qed.

Lemma string_strong_ind (P : string -> Prop) :
  (forall s, (forall t, (String.length t < String.length s)%nat -> P t) -> P s) ->
  forall s, P s.
Proof.
  intros H s.
  assert (G : forall n t, (String.length t < n)%nat -> P t).
  { induction n as [|n IH]; intros t Ht; [lia|].
    apply H. intros u Hu. apply IH. lia. }
  apply (G (S (String.length s))). lia.
Qed.

(** ** strings.TrimSpace *)

Section RunesFacts.
Variable w2 : ascii -> ascii -> bool.
Variable w3 : ascii -> ascii -> ascii -> bool.

(** What is left begins with no white-space rune. *)
Lemma dropSpaces_no_space (s : string) :
  strings.spaceWidth w2 w3 (strings.dropSpaces w2 w3 s) = 0%nat.
Proof.
  induction s as [s IH] using string_strong_ind.
  destruct s as [|c1 [|c2 [|c3 s3]]]; simpl.
  - reflexivity.
  - destruct (strings.asciiSpace c1) eqn:E1; simpl; [reflexivity|].
    rewrite E1. reflexivity.
  - destruct (strings.asciiSpace c1) eqn:E1.
    + apply (IH (String c2 "")). simpl. lia.
    + destruct (w2 c1 c2) eqn:E2; simpl; [reflexivity|].
      rewrite E1, E2. reflexivity.
  - destruct (strings.asciiSpace c1) eqn:E1.
    + apply (IH (String c2 (String c3 s3))). simpl. lia.
    + destruct (w2 c1 c2) eqn:E2.
      * apply (IH (String c3 s3)). simpl. lia.
      * destruct (w3 c1 c2 c3) eqn:E3.
        -- apply IH. simpl. lia.
        -- simpl. rewrite E1, E2, E3. reflexivity.
Qed.

(** What is left is a suffix of the string. *)
Lemma dropSpaces_suffix (s : string) :
  exists p, s = p ++ strings.dropSpaces w2 w3 s.
Proof.
  induction s as [s IH] using string_strong_ind.
  destruct s as [|c1 [|c2 [|c3 s3]]]; simpl.
  - exists "". reflexivity.
  - destruct (strings.asciiSpace c1).
    + exists (String c1 ""). reflexivity.
    + exists "". reflexivity.
  - destruct (strings.asciiSpace c1).
    + destruct (IH (String c2 "")) as [p Hp]; [simpl; lia|].
      exists (String c1 p). simpl. f_equal. exact Hp.
    + destruct (w2 c1 c2).
      * exists (String c1 (String c2 "")). reflexivity.
      * exists "". reflexivity.
  - destruct (strings.asciiSpace c1).
    + destruct (IH (String c2 (String c3 s3))) as [p Hp]; [simpl; lia|].
      exists (String c1 p). simpl. f_equal. exact Hp.
    + destruct (w2 c1 c2).
      * destruct (IH (String c3 s3)) as [p Hp]; [simpl; lia|].
        exists (String c1 (String c2 p)). simpl. do 2 f_equal. exact Hp.
      * destruct (w3 c1 c2 c3).
        -- destruct (IH s3) as [p Hp]; [simpl; lia|].
           exists (String c1 (String c2 (String c3 p))). simpl.
           do 3 f_equal. exact Hp.
        -- exists "". reflexivity.
Qed.

(** A string that begins with no white-space rune is left as it is. *)
Lemma dropSpaces_fixed (s : string) :
  strings.spaceWidth w2 w3 s = 0%nat -> strings.dropSpaces w2 w3 s = s.
Proof.
  destruct s as [|c1 [|c2 [|c3 s3]]]; simpl; try reflexivity.
  - destruct (strings.asciiSpace c1); [discriminate | reflexivity].
  - destruct (strings.asciiSpace c1); [discriminate|].
    destruct (w2 c1 c2); [discriminate | reflexivity].
  - destruct (strings.asciiSpace c1); [discriminate|].
    destruct (w2 c1 c2); [discriminate|].
    destruct (w3 c1 c2 c3); [discriminate | reflexivity].
Qed.

(** A prefix of a string that begins with no white-space rune begins
    with none either. *)
Lemma spaceWidth_prefix (x v : string) :
  strings.spaceWidth w2 w3 (x ++ v) = 0%nat ->
  strings.spaceWidth w2 w3 x = 0%nat.
Proof.
  destruct x as [|c1 [|c2 [|c3 x3]]]; simpl; try reflexivity.
  - destruct (strings.asciiSpace c1); [discriminate | reflexivity].
  - destruct (strings.asciiSpace c1); [discriminate|].
    destruct (w2 c1 c2); [discriminate | reflexivity].
  - destruct (strings.asciiSpace c1); [discriminate|].
    destruct (w2 c1 c2); [discriminate|].
    destruct (w3 c1 c2 c3); [discriminate | reflexivity].
Qed.

(** A carriage return appended to the string is kept, unless the whole
    string is white space; no encoding in the tables ends in 0D. *)
Hypothesis w2_cr : forall a, w2 a cr = false.
Hypothesis w3_cr : forall a b, w3 a b cr = false.

Lemma dropSpaces_append_cr (s : string) :
  strings.dropSpaces w2 w3 (s ++ String cr "")
  = if String.eqb (strings.dropSpaces w2 w3 s) "" then ""
    else strings.dropSpaces w2 w3 s ++ String cr "".
Proof.
  induction s as [s IH] using string_strong_ind.
  destruct s as [|c1 [|c2 [|c3 s3]]]; simpl.
  - reflexivity.
  - destruct (strings.asciiSpace c1); [reflexivity|].
    rewrite w2_cr. reflexivity.
  - destruct (strings.asciiSpace c1).
    + apply (IH (String c2 "")). simpl. lia.
    + destruct (w2 c1 c2); [reflexivity|].
      rewrite w3_cr. reflexivity.
  - destruct (strings.asciiSpace c1).
    + apply (IH (String c2 (String c3 s3))). simpl. lia.
    + destruct (w2 c1 c2).
      * apply (IH (String c3 s3)). simpl. lia.
      * destruct (w3 c1 c2 c3); [|reflexivity].
        apply IH. simpl. lia.
Qed.
End RunesFacts.

Lemma trimLeft_suffix (s : string) : exists p, s = p ++ strings.trimLeft s.
Proof. apply dropSpaces_suffix. Qed.

Lemma trimRight_prefix (s : string) : exists q, s = strings.trimRight s ++ q.
Proof.
  unfold strings.trimRight.
  destruct (dropSpaces_suffix strings.space2r strings.space3r (strRev s))
    as [p Hp].
  exists (strRev p).
  rewrite <- strRev_append, <- Hp, strRev_involutive. reflexivity.
Qed.

Lemma TrimSpace_infix (s : string) :
  exists p q, s = p ++ strings.TrimSpace s ++ q.
Proof.
  unfold strings.TrimSpace.
  destruct (trimLeft_suffix s) as [p Hp].
  destruct (trimRight_prefix (strings.trimLeft s)) as [q Hq].
  exists p, q. rewrite <- Hq. exact Hp.
Qed.

Lemma TrimSpace_length (s : string) :
  (String.length (strings.TrimSpace s) <= String.length s)%nat.
Proof.
  destruct (TrimSpace_infix s) as [p [q H]].
  apply (f_equal String.length) in H. rewrite !length_append in H. lia.
Qed.

Lemma TrimSpace_occurs (c : ascii) (s : string) :
  occurs c s = false -> occurs c (strings.TrimSpace s) = false.
Proof.
  destruct (TrimSpace_infix s) as [p [q H]].
  apply (f_equal (occurs c)) in H. rewrite !occurs_append in H.
  rewrite H, !orb_false_iff. tauto.
Qed.

(** The result of [TrimSpace] has white space at neither end. *)
Lemma TrimSpace_trimmed (s : string) :
  strings.leadingSpace (strings.TrimSpace s) = false
  /\ strings.trailingSpace (strings.TrimSpace s) = false.
Proof.
  unfold strings.leadingSpace, strings.trailingSpace, strings.TrimSpace.
  split.
  - destruct (trimRight_prefix (strings.trimLeft s)) as [q Hq].
    pose proof (dropSpaces_no_space strings.space2 strings.space3 s) as H.
    fold (strings.trimLeft s) in H. rewrite Hq in H.
    apply spaceWidth_prefix in H. rewrite H. reflexivity.
  - unfold strings.trimRight. rewrite strRev_involutive.
    rewrite dropSpaces_no_space. reflexivity.
Qed.

(** A string with white space at neither end is left as it is. *)
Lemma TrimSpace_fixed (s : string) :
  strings.leadingSpace s = false -> strings.trailingSpace s = false ->
  strings.TrimSpace s = s.
Proof.
  unfold strings.leadingSpace, strings.trailingSpace. intros Hl Hr.
  apply negb_false_iff, Nat.eqb_eq in Hl, Hr.
  unfold strings.TrimSpace, strings.trimLeft.
  rewrite (dropSpaces_fixed _ _ _ Hl).
  unfold strings.trimRight.
  rewrite (dropSpaces_fixed _ _ _ Hr). apply strRev_involutive.
Qed.

Lemma TrimSpace_idempotent (s : string) :
  strings.TrimSpace (strings.TrimSpace s) = strings.TrimSpace s.
Proof.
  destruct (TrimSpace_trimmed s). apply TrimSpace_fixed; assumption.
Qed.

Lemma dropCR_cases (t : string) :
  bufio.dropCR t = t
  \/ exists t', t = t' ++ String cr "" /\ bufio.dropCR t = t'.
Proof.
  induction t as [|d t IH]; [left; reflexivity|].
  destruct t as [|e t].
  - simpl. destruct (Ascii.eqb_spec d cr) as [->|]; [|left; reflexivity].
    right. exists "". split; reflexivity.
  - change (bufio.dropCR (String d (String e t)))
      with (String d (bufio.dropCR (String e t))).
    destruct IH as [IH | [t' [H1 H2]]].
    + left. rewrite IH. reflexivity.
    + right. exists (String d t'). rewrite H2.
      split; [simpl; f_equal; exact H1 | reflexivity].
Qed.

Lemma dropCR_length (t : string) :
  (String.length (bufio.dropCR t) <= String.length t)%nat.
Proof.
  destruct (dropCR_cases t) as [-> | [t' [H1 H2]]]; [lia|].
  apply (f_equal String.length) in H1. rewrite length_append in H1.
  rewrite H2. lia.
Qed.

Lemma trimRight_append_cr (s : string) :
  strings.trimRight (s ++ String cr "") = strings.trimRight s.
Proof.
  unfold strings.trimRight. rewrite strRev_append. reflexivity.
Qed.

Lemma trimLeft_append_cr (s : string) :
  strings.trimLeft (s ++ String cr "")
  = if String.eqb (strings.trimLeft s) "" then ""
    else strings.trimLeft s ++ String cr "".
Proof.
  apply dropSpaces_append_cr.
  - intros a. unfold strings.space2.
    rewrite andb_false_iff. right. reflexivity.
  - intros a b. unfold strings.space3.
    change (strings.byteIs cr 128) with false.
    change (strings.byteIs cr 159) with false.
    change (strings.within cr 128 138 || strings.byteIs cr 168
            || strings.byteIs cr 169 || strings.byteIs cr 175) with false.
    rewrite !andb_false_r. reflexivity.
Qed.

(** The carriage return that the scanner drops is white space, so the
    trimmed line is the same with or without it. *)
Lemma TrimSpace_dropCR (t : string) :
  strings.TrimSpace (bufio.dropCR t) = strings.TrimSpace t.
Proof.
  destruct (dropCR_cases t) as [-> | [t' [H1 H2]]]; [reflexivity|].
  rewrite H2, H1. unfold strings.TrimSpace. rewrite trimLeft_append_cr.
  destruct (String.eqb_spec (strings.trimLeft t') "") as [E|E].
  - rewrite E. reflexivity.
  - rewrite trimRight_append_cr. reflexivity.
Qed.

(** ** Lines and the scanner *)

Lemma IndexByte_none (c : ascii) (s : string) :
  occurs c s = false -> bufio.IndexByte s c = None.
Proof.
  induction s as [|d s IH]; simpl; [reflexivity|].
  destruct (Ascii.eqb d c); simpl; [discriminate|].
  intros H. rewrite (IH H). reflexivity.
Qed.

Lemma IndexByte_first (c : ascii) (t rest : string) :
  occurs c t = false ->
  bufio.IndexByte (t ++ String c rest) c = Some (String.length t).
Proof.
  induction t as [|d t IH]; simpl.
  - rewrite Ascii.eqb_refl. reflexivity.
  - destruct (Ascii.eqb d c); simpl; [discriminate|].
    intros H. rewrite (IH H). reflexivity.
Qed.

Lemma sliceTo_append (t rest : string) :
  bufio.sliceTo (String.length t) (t ++ rest) = t.
Proof.
  induction t as [|d t IH]; simpl.
  - destruct rest; reflexivity.
  - rewrite IH. reflexivity.
Qed.

Lemma sliceFrom_append (c : ascii) (t rest : string) :
  bufio.sliceFrom (S (String.length t)) (t ++ String c rest) = rest.
Proof. induction t as [|d t IH]; simpl; [reflexivity | exact IH]. Qed.

(** A text with a newline is a first line, the newline, and the rest. *)
Lemma cut_line (s : string) :
  occurs nl s = true ->
  exists t rest, s = t ++ String nl rest /\ occurs nl t = false.
Proof.
  induction s as [|d s IH]; simpl; [discriminate|].
  destruct (Ascii.eqb_spec d nl) as [->|Hd]; simpl.
  - intros _. exists "", s. split; reflexivity.
  - intros H. destruct (IH H) as [t [rest [-> Ht]]].
    exists (String d t), rest. split; [reflexivity|]. simpl.
    apply Ascii.eqb_neq in Hd. rewrite Hd. exact Ht.
Qed.

Lemma splitLines_line (t rest : string) :
  occurs nl t = false ->
  splitLines (t ++ String nl rest) = t :: splitLines rest.
Proof.
  induction t as [|d t IH]; simpl.
  - intros _. reflexivity.
  - destruct (Ascii.eqb d nl); simpl; [discriminate|].
    intros H. rewrite (IH H). reflexivity.
Qed.

Lemma splitLines_last (t : string) :
  occurs nl t = false -> t <> "" -> splitLines t = [t].
Proof.
  induction t as [|d t IH]; simpl; [congruence|].
  destruct (Ascii.eqb d nl); simpl; [discriminate|].
  intros H _. destruct t as [|e t]; [reflexivity|].
  rewrite (IH H); [reflexivity | discriminate].
Qed.

Lemma Scan_line (t rest : string) :
  occurs nl t = false ->
  bufio.Scan (t ++ String nl rest)
  = if fitsBuffer t then Token (bufio.dropCR t) rest
    else Failed bufio.ErrTooLong.
Proof.
  intros H. unfold bufio.Scan, fitsBuffer.
  rewrite (IndexByte_first _ _ _ H), sliceTo_append, sliceFrom_append.
  destruct t; reflexivity.
Qed.

Lemma Scan_last (t : string) :
  occurs nl t = false -> t <> "" ->
  bufio.Scan t
  = if fitsBuffer t then Token (bufio.dropCR t) ""
    else Failed bufio.ErrTooLong.
Proof.
  intros H Ht. unfold bufio.Scan, fitsBuffer.
  rewrite (IndexByte_none _ _ H). destruct t; [congruence | reflexivity].
Qed.

Lemma loadAll_cons (t : string) (ls : list string) :
  filter keep (map strings.TrimSpace (t :: ls))
  = ((if keep (strings.TrimSpace t) then [strings.TrimSpace t] else [])
     ++ filter keep (map strings.TrimSpace ls))%list.
Proof. simpl. destruct (keep (strings.TrimSpace t)); reflexivity. Qed.

(** The loop computes [loadAll] on what is left of the input, unless a
    line does not fit the buffer; with fuel above the length of the input
    it never runs out. *)
Lemma scanLoop_fuel (fuel : nat) :
  forall (input : string) (folders : list string),
    (String.length input < fuel)%nat ->
    scanLoop fuel input folders
    = if forallb fitsBuffer (splitLines input)
      then Ok (folders ++ loadAll input)%list
      else Err bufio.ErrTooLong.
Proof.
  induction fuel as [|fuel IH]; intros input folders Hlen; [lia|].
  destruct input as [|c0 input0] eqn:Einput.
  { simpl. rewrite app_nil_r. reflexivity. }
  rewrite <- Einput in *. assert (Hne : input <> "") by congruence.
  clear Einput c0 input0. unfold loadAll.
  destruct (occurs nl input) eqn:Hnl.
  - destruct (cut_line _ Hnl) as [t [rest [-> Ht]]].
    rewrite length_append in Hlen. simpl in Hlen.
    rewrite splitLines_line by exact Ht.
    rewrite loadAll_cons.
    cbn [scanLoop forallb]. rewrite (Scan_line _ _ Ht).
    destruct (fitsBuffer t); [|reflexivity]. cbn [andb].
    rewrite TrimSpace_dropCR, IH by lia. fold (keep (strings.TrimSpace t)).
    unfold loadAll.
    destruct (forallb fitsBuffer (splitLines rest)); [|reflexivity].
    destruct (keep (strings.TrimSpace t)); [|reflexivity].
    rewrite <- app_assoc. reflexivity.
  - rewrite (splitLines_last _ Hnl Hne). rewrite loadAll_cons.
    cbn [scanLoop forallb map filter]. rewrite (Scan_last _ Hnl Hne).
    destruct (fitsBuffer input); [|reflexivity]. cbn [andb].
    rewrite TrimSpace_dropCR. fold (keep (strings.TrimSpace input)).
    assert (Hf : (String.length "" < fuel)%nat).
    { destruct input; [congruence | simpl in *; lia]. }
    rewrite (IH "" _ Hf). simpl. rewrite !app_nil_r.
    destruct (keep (strings.TrimSpace input)); [|rewrite app_nil_r]; reflexivity.
Qed.

(** [readFolderList] on a file that opens. *)
Lemma readFolderList_spec (f : File) :
  openErr f = None ->
  readFolderList f
  = if forallb fitsBuffer (splitLines (contents f))
    then Ok (loadAll (contents f))
    else Err bufio.ErrTooLong.
Proof.
  intros H. unfold readFolderList. rewrite H.
  rewrite scanLoop_fuel by lia. reflexivity.
Qed.

(** ** The store: loading *)

Lemma writeLoop_rewritten (paths : list string) (f : File) :
  writeErr f = None ->
  writeLoop paths f = (None, setContents f (contents f ++ rewritten paths)).
Proof.
  revert f. induction paths as [|p paths IH]; intros f Hw; simpl.
  - rewrite append_nil_r. destruct f; reflexivity.
  - unfold WriteString. rewrite Hw. rewrite IH by exact Hw.
    unfold setContents. simpl. rewrite append_assoc. reflexivity.
Qed.

Lemma splitLines_rewritten (paths : list string) :
  Forall (fun p => occurs nl p = false) paths ->
  splitLines (rewritten paths) = paths.
Proof.
  induction 1 as [|p paths Hp _ IH]; simpl; [reflexivity|].
  unfold endl. rewrite append_assoc. simpl.
  rewrite (splitLines_line _ _ Hp), IH. reflexivity.
Qed.

Lemma trimmed_TrimSpace (p : string) : trimmed p -> strings.TrimSpace p = p.
Proof. intros [_ [_ [Hl Hr]]]. apply TrimSpace_fixed; assumption. Qed.

Lemma loadAll_rewritten (paths : list string) :
  Forall trimmed paths -> loadAll (rewritten paths) = paths.
Proof.
  intros H. unfold loadAll. rewrite splitLines_rewritten.
  - induction H as [|p paths Hp _ IH]; simpl; [reflexivity|].
    rewrite (trimmed_TrimSpace _ Hp), IH.
    destruct Hp as [Hne _]. apply String.eqb_neq in Hne.
    unfold keep. rewrite Hne. reflexivity.
  - eapply Forall_impl; [|exact H]. intros p [_ [Hp _]]. exact Hp.
Qed.

Lemma readFolderList_rewritten (paths : list string) (f : File) :
  openErr f = None ->
  contents f = rewritten paths ->
  Forall trimmed paths ->
  forallb fitsBuffer paths = true ->
  readFolderList f = Ok paths.
Proof.
  intros Ho Hc Ht Hfit. rewrite (readFolderList_spec _ Ho), Hc.
  rewrite splitLines_rewritten.
  - rewrite Hfit, loadAll_rewritten by exact Ht. reflexivity.
  - eapply Forall_impl; [|exact Ht]. intros p [_ [Hp _]]. exact Hp.
Qed.

Lemma longPath_too_long :
  readFolderList (file (endl longPath)) = Err bufio.ErrTooLong.
Proof. vm_compute. reflexivity. Qed.

Lemma longPath_trimmed : trimmed longPath.
Proof.
  unfold trimmed. split; [|split; [|split]].
  - intros H. apply (f_equal (String.eqb "")) in H.
    vm_compute in H. discriminate.
  - vm_compute. reflexivity.
  - vm_compute. reflexivity.
  - vm_compute. reflexivity.
Qed.




(** C9 (rewrite then load), as amended.  For every sequence of strings
    that are non-empty, have no white space at either end, contain no
    newline and are shorter than the scanner's buffer (65536 bytes):
    writing each element followed by a newline into the truncated file,
    as the loop of [removeFolder] does, and reading the file with
    [readFolderList] yields the original sequence. *)
Theorem rewrite_then_load (paths : list string) :
  Forall trimmed paths ->
  forallb fitsBuffer paths = true ->
  writeLoop paths (file "") = (None, file (rewritten paths))
  /\ readFolderList (snd (writeLoop paths (file ""))) = Ok paths.
Proof.
  intros Ht Hfit.
  assert (Hw : writeLoop paths (file "") = (None, file (rewritten paths))).
  { rewrite writeLoop_rewritten by reflexivity. reflexivity. }
  split; [exact Hw|]. rewrite Hw.
  apply readFolderList_rewritten; [reflexivity | reflexivity | exact Ht | exact Hfit].
Qed.

Lemma rewrite_then_load_witness :
  readFolderList (snd (writeLoop ["/home/u/proj"; "/home/u/my docs"] (file "")))
  = Ok ["/home/u/proj"; "/home/u/my docs"].
Proof.
  apply (rewrite_then_load ["/home/u/proj"; "/home/u/my docs"]).
  - repeat constructor; try discriminate.
  - reflexivity.
Defined.

(** C9 as stated fails: the one-element sequence holding a path of
    131072 bytes ('a' repeated) is non-empty, without white space and
    without newline, and yet reading back what was written returns an
    error. *)
Lemma rewrite_then_load_counterexample :
  trimmed longPath
  /\ readFolderList (snd (writeLoop [longPath] (file ""))) <> Ok [longPath].
Proof.
  split; [exact longPath_trimmed|].
  rewrite writeLoop_rewritten by reflexivity.
  cbn [snd rewritten file contents append].
  rewrite append_nil_r.
  change (readFolderList (file (endl longPath)) <> Ok [longPath]).
  rewrite longPath_too_long. discriminate.
Qed.

(** ** Entries of a loaded list *)

Lemma splitLines_no_newline (s : string) :
  Forall (fun t => occurs nl t = false) (splitLines s).
Proof.
  induction s as [|c s IH]; simpl; [constructor|].
  destruct (Ascii.eqb c nl) eqn:E.
  - constructor; [reflexivity | exact IH].
  - destruct (splitLines s) as [|l ls].
    + repeat constructor. simpl. rewrite E. reflexivity.
    + inversion IH as [|? ? Hl Hls]; subst.
      constructor; [|exact Hls]. simpl. rewrite E. exact Hl.
Qed.

Lemma readFolderList_Ok (f : File) (folders : list string) :
  readFolderList f = Ok folders ->
  openErr f = None
  /\ forallb fitsBuffer (splitLines (contents f)) = true
  /\ folders = loadAll (contents f).
Proof.
  intros H. assert (Ho : openErr f = None).
  { unfold readFolderList in H. destruct (openErr f); [discriminate|reflexivity]. }
  rewrite (readFolderList_spec _ Ho) in H.
  destruct (forallb fitsBuffer (splitLines (contents f))); [|discriminate].
  injection H as H. auto.
Qed.

(** Every entry of a list that was read is as the data model wants it,
    and fits the scanner's buffer. *)
Lemma loaded_entries (f : File) (folders : list string) :
  readFolderList f = Ok folders ->
  Forall trimmed folders /\ forallb fitsBuffer folders = true.
Proof.
  intros H. apply readFolderList_Ok in H. destruct H as [_ [Hfit ->]].
  rewrite forallb_forall in Hfit.
  assert (G : forall p, In p (loadAll (contents f)) ->
                        trimmed p /\ fitsBuffer p = true).
  { intros p Hp. unfold loadAll in Hp. apply filter_In in Hp.
    destruct Hp as [Hp Hk]. apply in_map_iff in Hp.
    destruct Hp as [t [<- Ht]]. split.
    - unfold trimmed. split; [|split].
      + unfold keep in Hk. apply negb_true_iff, String.eqb_neq in Hk. exact Hk.
      + apply TrimSpace_occurs.
        pose proof (splitLines_no_newline (contents f)) as Hn.
        rewrite Forall_forall in Hn. apply Hn. exact Ht.
      + apply TrimSpace_trimmed.
    - specialize (Hfit t Ht). unfold fitsBuffer in *.
      apply Nat.ltb_lt in Hfit. apply Nat.ltb_lt.
      pose proof (TrimSpace_length t). lia. }
  split.
  - apply Forall_forall. intros p Hp. apply G. exact Hp.
  - apply forallb_forall. intros p Hp. apply G. exact Hp.
Qed.

Lemma no_newline_not_endl (p : string) :
  occurs nl p = false -> forall s, p <> endl s.
Proof.
  intros H s ->. unfold endl in H. rewrite occurs_append in H.
  simpl in H. rewrite orb_true_r in H. discriminate.
Qed.

(** ** The verbs *)

Lemma firstMatch_jumpScan (arg : string) (folders : list string) (i : Z) :
  jumpScan folders arg
  = match firstMatch arg folders i with
    | Some (_, p) => printed p
    | None => silentExit
    end.
Proof.
  revert i. induction folders as [|f folders IH]; intros i; simpl;
    [reflexivity|].
  destruct (String.eqb (filepath.Base f) arg || String.eqb f arg);
    [reflexivity | apply IH].
Qed.

Lemma firstMatch_In (arg : string) (folders : list string) (i j : Z) (p : string) :
  firstMatch arg folders i = Some (j, p) -> In p folders.
Proof.
  revert i. induction folders as [|f folders IH]; intros i; simpl;
    [discriminate|].
  destruct (String.eqb (filepath.Base f) arg || String.eqb f arg).
  - intros [= _ <-]. left. reflexivity.
  - intros H. right. exact (IH _ H).
Qed.

Lemma resolve_jumpIn (arg : string) (folders : list string) :
  jumpIn folders arg
  = match resolve arg folders with
    | Some (_, p) => printed p
    | None => silentExit
    end.
Proof.
  unfold jumpIn, resolve.
  destruct (strconv.Atoi arg) as [n|]; [|apply firstMatch_jumpScan].
  destruct (Z.ltb_spec 0 n), (Z.leb_spec 1 n); try lia;
    [|apply firstMatch_jumpScan].
  destruct (Z.leb_spec n (len folders)); [|apply firstMatch_jumpScan].
  simpl. destruct (index_Some folders (n - 1)) as [p Hp]; [lia|].
  rewrite Hp, (index_nth_error _ _ _ Hp). reflexivity.
Qed.

Lemma resolve_In (arg : string) (folders : list string) (i : Z) (p : string) :
  resolve arg folders = Some (i, p) -> In p folders.
Proof.
  unfold resolve.
  destruct (strconv.Atoi arg) as [n|]; [|apply firstMatch_In].
  destruct ((1 <=? n) && (n <=? len folders)); [|apply firstMatch_In].
  destruct (nth_error folders (Z.to_nat (n - 1))) as [q|] eqn:E;
    [|discriminate].
  intros [= _ <-]. eapply nth_error_In. exact E.
Qed.

(** C2 (jump output contract).  For every state of the config file and
    every token: when the list is read and resolution succeeds,
    [jumpToFolder] writes exactly the resolved path to standard output,
    which does not end in a newline, writes nothing else, and exits 0;
    when resolution fails, or the list cannot be read, it writes nothing
    and exits with status 1. *)
Theorem jump_output (f : File) (arg : string) :
  (forall folders i path,
      readFolderList f = Ok folders ->
      resolve arg folders = Some (i, path) ->
      jumpToFolder f arg = mkProcess path "" 0
      /\ forall s, path <> endl s)
  /\ (forall folders,
         readFolderList f = Ok folders ->
         resolve arg folders = None ->
         jumpToFolder f arg = mkProcess "" "" 1)
  /\ (forall err,
         readFolderList f = Err err ->
         jumpToFolder f arg = mkProcess "" "" 1).
Proof.
  unfold jumpToFolder. split; [|split].
  - intros folders i path Hr Hres. rewrite Hr, resolve_jumpIn, Hres.
    split; [reflexivity|].
    apply no_newline_not_endl.
    destruct (loaded_entries _ _ Hr) as [Ht _].
    rewrite Forall_forall in Ht.
    destruct (Ht path (resolve_In _ _ _ _ Hres)) as [_ [Hn _]]. exact Hn.
  - intros folders Hr Hres. rewrite Hr, resolve_jumpIn, Hres. reflexivity.
  - intros err Hr. rewrite Hr. reflexivity.
Qed.

Lemma jump_output_witness :
  jumpToFolder (file (endl "/a/b" ++ endl "/c/d")) "d" = mkProcess "/c/d" "" 0
  /\ jumpToFolder (file (endl "/a/b" ++ endl "/c/d")) "99" = mkProcess "" "" 1
  /\ jumpToFolder (mkFile "" (Some "permission denied") None None None) "d"
     = mkProcess "" "" 1.
Proof.
  split; [|split].
  - destruct (jump_output (file (endl "/a/b" ++ endl "/c/d")) "d")
      as [H _].
    apply (H ["/a/b"; "/c/d"] 1 "/c/d"); reflexivity.
  - destruct (jump_output (file (endl "/a/b" ++ endl "/c/d")) "99")
      as [_ [H _]].
    apply (H ["/a/b"; "/c/d"]); reflexivity.
  - destruct (jump_output (mkFile "" (Some "permission denied") None None None)
                "d") as [_ [_ H]].
    apply (H "permission denied"). reflexivity.
Defined.

Lemma removeScan_none (arg : string) (folders : list string) (i : Z) :
  (forall g, In g folders -> ~ matches arg g) ->
  removeScan folders arg i = -1.
Proof.
  revert i. induction folders as [|g folders IH]; intros i H; simpl;
    [reflexivity|].
  assert (Hg : ~ matches arg g) by (apply H; left; reflexivity).
  apply matches_eqb_false in Hg. rewrite Hg.
  apply IH. intros h Hh. apply H. right. exact Hh.
Qed.

Lemma len_nonempty (folders : list string) :
  folders <> [] -> (len folders =? 0) = false.
Proof.
  intros H. apply Z.eqb_neq. unfold len.
  destruct folders; [congruence | simpl; lia].
Qed.

(** C3 (remove, token not found), as amended.  For every non-empty
    stored list and every token that matches no entry (not a number in
    range, and equal to no base name and to no full path), [removeFolder]
    reports the token on standard error, exits with status 1, and leaves
    the config file as it was. *)
Theorem remove_not_found (f : File) (arg : string) (folders : list string) :
  readFolderList f = Ok folders ->
  folders <> [] ->
  (forall n, ~ numeric arg folders n) ->
  (forall g, In g folders -> ~ matches arg g) ->
  removeFolder f arg = (mkProcess "" ("Folder not found: " ++ endl arg) 1, f).
Proof.
  intros Hr Hne Hnum Hno. unfold removeFolder.
  rewrite Hr, (len_nonempty _ Hne).
  rewrite (indexToRemove_not_numeric _ _ Hnum), (removeScan_none _ _ _ Hno).
  reflexivity.
Qed.

Lemma remove_not_found_witness :
  removeFolder (file (endl "/a/b" ++ endl "/c/d")) "99"
  = (mkProcess "" ("Folder not found: " ++ endl "99") 1,
     file (endl "/a/b" ++ endl "/c/d")).
Proof.
  apply (remove_not_found (file (endl "/a/b" ++ endl "/c/d")) "99"
           ["/a/b"; "/c/d"]).
  - reflexivity.
  - discriminate.
  - intros n [Hn Hr]. vm_compute in Hn. injection Hn as <-.
    unfold len in Hr. simpl in Hr. lia.
  - intros g [<-|[<-|[]]] [Hg|Hg]; vm_compute in Hg; discriminate.
Defined.

(** C3 as stated fails on the empty list: the token ["99"] matches no
    entry of the empty store, and [removeFolder] exits with status 0,
    with nothing on standard error. *)
Lemma remove_not_found_counterexample :
  readFolderList (file "") = Ok []
  /\ (forall n, ~ numeric "99" [] n)
  /\ (forall g, In g [] -> ~ matches "99" g)
  /\ exitCode (fst (removeFolder (file "") "99")) = 0
  /\ stderr (fst (removeFolder (file "") "99")) = "".
Proof.
  split; [reflexivity|]. split; [|split; [|split]].
  - intros n [Hn Hr]. unfold len in Hr. simpl in Hr. lia.
  - intros g [].
  - reflexivity.
  - reflexivity.
Qed.

(** C10 (remove on an empty store).  For every token, when the stored
    list is empty [removeFolder] prints an informational message to
    standard output, exits with status 0, and leaves the config file as
    it was. *)
Theorem remove_on_empty (f : File) (arg : string) :
  readFolderList f = Ok [] ->
  removeFolder f arg = (mkProcess (endl "No folders in jump list.") "" 0, f).
Proof. intros Hr. unfold removeFolder. rewrite Hr. reflexivity. Qed.

Lemma remove_on_empty_witness :
  removeFolder (file "") "proj"
  = (mkProcess (endl "No folders in jump list.") "" 0, file "").
Proof. apply (remove_on_empty (file "") "proj"). reflexivity. Defined.

Lemma endl_assoc (a b : string) : a ++ endl b = endl (a ++ b).
Proof. unfold endl. rewrite append_assoc. reflexivity. Qed.

(** The loop of [listFolders] started at index [i] numbers the entries
    from [i+1]. *)
Lemma listLoop_numbered (folders : list string) (i : nat) :
  listLoop folders (Z.of_nat i)
  = joined (map numberedLine (combine (seq (S i) (List.length folders)) folders)).
Proof.
  revert i. induction folders as [|p folders IH]; intros i; [reflexivity|].
  cbn [listLoop List.length seq combine map joined fold_right].
  replace (Z.of_nat i + 1) with (Z.of_nat (S i)) by lia.
  rewrite IH. unfold numberedLine at 2. cbn [fst snd].
  rewrite <- !endl_assoc. reflexivity.
Qed.

(** C4 (list output), as amended.  For every non-empty stored list,
    [listFolders] prints the header line [Available folders:] and then
    each path prefixed with its 1-based index, one per line, in stored
    order, and exits 0; in particular, after [/home/u/proj] has been added
    to an empty store, it prints the header followed by the line
    [1. /home/u/proj]. *)
Theorem list_output :
  (forall (f : File) (folders : list string),
      readFolderList f = Ok folders ->
      folders <> [] ->
      listFolders f
      = mkProcess (endl "Available folders:" ++ joined (numbered folders)) "" 0)
  /\ listFolders (snd (addFolder (Ok "/home/u/proj") (file "")))
     = mkProcess (endl "Available folders:" ++ endl "1. /home/u/proj") "" 0.
Proof.
  split; [|reflexivity].
  intros f folders Hr Hne. unfold listFolders.
  rewrite Hr, (len_nonempty _ Hne).
  unfold numbered. rewrite <- (listLoop_numbered folders 0). reflexivity.
Qed.

Lemma list_output_witness :
  listFolders (file (endl "/home/u/proj" ++ endl "/home/u/docs"))
  = mkProcess (endl "Available folders:" ++ endl "1. /home/u/proj"
               ++ endl "2. /home/u/docs") "" 0.
Proof.
  destruct list_output as [H _].
  apply (H (file (endl "/home/u/proj" ++ endl "/home/u/docs"))
           ["/home/u/proj"; "/home/u/docs"]).
  - reflexivity.
  - discriminate.
Defined.

(** C4 as stated fails: after [/home/u/proj] has been added to an empty
    store, the output of [listFolders] is not the line [1. /home/u/proj];
    a header line comes first. *)
Lemma list_output_counterexample :
  stdout (listFolders (snd (addFolder (Ok "/home/u/proj") (file ""))))
  <> endl "1. /home/u/proj".
Proof. vm_compute. discriminate. Qed.

(** ** Numeric tokens *)

Ltac digit_step :=
  match goal with
  | |- context [strconv.isDigit ?c] =>
      change (strconv.isDigit c) with true;
      let v := eval vm_compute in (strconv.digitVal c) in
      change (strconv.digitVal c) with v
  end; cbv iota.

Lemma digits_of_uint_acc (d : Decimal.uint) :
  forall acc : positive,
    strconv.digits (NilEmpty.string_of_uint d) (Z.pos acc)
    = Some (Z.pos (Pos.of_uint_acc d acc)).
Proof.
  induction d as [|d IH|d IH|d IH|d IH|d IH|d IH|d IH|d IH|d IH|d IH];
    intros acc; [reflexivity|..];
    cbn [NilEmpty.string_of_uint strconv.digits Pos.of_uint_acc];
    rewrite <- IH; digit_step; f_equal; lia.
Qed.

Lemma digits_of_uint (d : Decimal.uint) :
  strconv.digits (NilEmpty.string_of_uint d) 0 = Some (Z.of_N (Pos.of_uint d)).
Proof.
  induction d as [|d IH|d IH|d IH|d IH|d IH|d IH|d IH|d IH|d IH|d IH];
    [reflexivity | exact IH | ..];
    cbn [NilEmpty.string_of_uint strconv.digits Pos.of_uint Z.of_N];
    rewrite <- digits_of_uint_acc; reflexivity.
Qed.

Lemma Atoi_string_of_uint (d : Decimal.uint) :
  d <> Decimal.Nil ->
  strconv.Atoi (NilEmpty.string_of_uint d)
  = match strconv.digits (NilEmpty.string_of_uint d) 0 with
    | Some un =>
        if (strconv.minInt <=? un) && (un <=? strconv.maxInt)
        then Some un else None
    | None => None
    end.
Proof. destruct d; [congruence | reflexivity ..]. Qed.

(** A number printed with [%d] parses back to itself. *)
Lemma Atoi_Itoa (n : Z) :
  0 <= n <= strconv.maxInt -> strconv.Atoi (strconv.Itoa n) = Some n.
Proof.
  intros Hn. unfold strconv.Itoa. rewrite Atoi_string_of_uint.
  - rewrite digits_of_uint.
    change (Pos.of_uint (N.to_uint (Z.to_N n)))
      with (N.of_uint (N.to_uint (Z.to_N n))).
    rewrite DecimalN.Unsigned.of_to, Z2N.id by lia.
    assert (Hmin : strconv.minInt <= 0) by (vm_compute; discriminate).
    destruct (Z.leb_spec strconv.minInt n); [|lia].
    destruct (Z.leb_spec n strconv.maxInt); [|lia]. reflexivity.
  - destruct (Z.to_N n); [discriminate|].
    apply DecimalPos.Unsigned.to_uint_nonnil.
Qed.

(** ** add and remove *)

Lemma splitLines_nonempty (s : string) : s <> "" -> splitLines s <> [].
Proof.
  destruct s as [|c s]; [congruence|]. intros _. simpl.
  destruct (Ascii.eqb c nl); [discriminate|].
  destruct (splitLines s); discriminate.
Qed.

(** After a terminated text, further text starts on a line of its own. *)
Lemma splitLines_append (a b : string) :
  terminated a ->
  splitLines (a ++ b) = (splitLines a ++ splitLines b)%list.
Proof.
  intros [-> | [s ->]]; [reflexivity|]. unfold endl.
  induction s as [|d s IH]; [reflexivity|].
  cbn [append splitLines]. destruct (Ascii.eqb d nl).
  - rewrite IH. reflexivity.
  - rewrite IH.
    destruct (splitLines (s ++ String nl "")) eqn:E; [|reflexivity].
    exfalso. revert E. apply splitLines_nonempty. destruct s; discriminate.
Qed.

Lemma readFolderList_appended (f : File) (folders : list string) (p : string) :
  readFolderList f = Ok folders ->
  terminated (contents f) ->
  trimmed p ->
  fitsBuffer p = true ->
  readFolderList (setContents f (contents f ++ endl p))
  = Ok (folders ++ [p])%list.
Proof.
  intros Hr Hterm Hp Hfit.
  destruct (readFolderList_Ok _ _ Hr) as [Ho [Hfits ->]].
  rewrite readFolderList_spec by exact Ho.
  cbn [contents setContents].
  assert (Hl : splitLines (endl p) = [p]).
  { unfold endl. destruct Hp as [_ [Hn _]].
    rewrite (splitLines_line _ _ Hn). reflexivity. }
  rewrite (splitLines_append _ _ Hterm), Hl, forallb_app, Hfits.
  cbn [forallb]. rewrite Hfit. cbn [andb].
  unfold loadAll. rewrite (splitLines_append _ _ Hterm), Hl.
  rewrite map_app, filter_app. cbn [map filter].
  rewrite (trimmed_TrimSpace _ Hp).
  destruct Hp as [Hne _]. apply String.eqb_neq in Hne.
  unfold keep at 2. rewrite Hne. reflexivity.
Qed.

Lemma alreadyListed_In (folders : list string) (p : string) :
  alreadyListed folders p = true <-> In p folders.
Proof.
  induction folders as [|g folders IH]; simpl; [intuition discriminate|].
  destruct (String.eqb_spec g p) as [->|Hg]; [tauto|].
  rewrite IH. intuition congruence.
Qed.

Lemma alreadyListed_false (folders : list string) (p : string) :
  alreadyListed folders p = false <-> ~ In p folders.
Proof.
  rewrite <- alreadyListed_In. destruct (alreadyListed folders p);
    intuition congruence.
Qed.

(** What one [add] from [p] does to a store that is in order. *)
Lemma addFolder_healthy (f : File) (folders : list string) (p : string) :
  healthy f ->
  readFolderList f = Ok folders ->
  addFolder (Ok p) f
  = if alreadyListed folders p
    then (mkProcess ("Current folder already in the list: " ++ endl p) "" 0, f)
    else (mkProcess ("Added current folder to jump list: " ++ endl p) "" 0,
          setContents f (contents f ++ endl p)).
Proof.
  intros [_ [Ha [_ Hw]]] Hr. unfold addFolder, WriteString.
  rewrite Hr, Ha, Hw. reflexivity.
Qed.

Lemma healthy_setContents (f : File) (s : string) :
  healthy f -> healthy (setContents f s).
Proof. intros H. exact H. Qed.

Lemma removeAt_split (l1 l2 : list string) (p : string) :
  removeAt (l1 ++ p :: l2) (Z.of_nat (List.length l1)) = (l1 ++ l2)%list.
Proof.
  unfold removeAt.
  replace (Z.to_nat (Z.of_nat (List.length l1) + 1)) with (S (List.length l1))
    by lia.
  rewrite Nat2Z.id.
  induction l1 as [|g l1 IH]; [reflexivity|].
  cbn [List.length app firstn skipn] in *. rewrite IH. reflexivity.
Qed.

(** What [remove] with the number of an entry does to a store that is in
    order. *)
Lemma removeFolder_numbered (f : File) (l1 l2 : list string) (p : string) :
  healthy f ->
  readFolderList f = Ok (l1 ++ p :: l2)%list ->
  len (l1 ++ p :: l2) <= strconv.maxInt ->
  removeFolder f (strconv.Itoa (Z.of_nat (List.length l1) + 1))
  = (mkProcess ("Removed folder: " ++ endl p) "" 0,
     setContents f (rewritten (l1 ++ l2))).
Proof.
  intros [_ [_ [Hc Hw]]] Hr Hlen. unfold removeFolder. rewrite Hr.
  rewrite len_nonempty by (destruct l1; discriminate).
  assert (Hin : 0 < Z.of_nat (List.length l1) + 1 <= len (l1 ++ p :: l2)).
  { unfold len. rewrite length_app. simpl. lia. }
  unfold indexToRemove. rewrite Atoi_Itoa by lia.
  destruct (Z.ltb_spec 0 (Z.of_nat (List.length l1) + 1)); [|lia].
  destruct (Z.leb_spec (Z.of_nat (List.length l1) + 1) (len (l1 ++ p :: l2)));
    [|lia].
  cbn [andb]. rewrite Z.add_simpl_r.
  destruct (Z.eqb_spec (Z.of_nat (List.length l1)) (-1)); [lia|].
  unfold index. destruct (Z.ltb_spec (Z.of_nat (List.length l1)) 0); [lia|].
  rewrite Nat2Z.id, nth_error_app2, Nat.sub_diag by lia. cbn [nth_error].
  rewrite removeAt_split. unfold Create. rewrite Hc.
  rewrite writeLoop_rewritten by exact Hw. reflexivity.
Qed.

Lemma count_occ_one_In (folders : list string) (p : string) :
  In p folders ->
  (count_occ string_dec folders p <= 1)%nat ->
  count_occ string_dec folders p = 1%nat.
Proof.
  intros Hin Hle. apply (count_occ_In string_dec) in Hin. lia.
Qed.

(** The store after one [add] from a clean path [p]: it loads, every
    system call on it still succeeds, it holds [p] exactly once, and a
    further [add] from [p] finds [p] listed. *)
Lemma after_add (f : File) (p : string) (folders : list string) :
  healthy f ->
  readFolderList f = Ok folders ->
  terminated (contents f) ->
  (count_occ string_dec folders p <= 1)%nat ->
  trimmed p ->
  fitsBuffer p = true ->
  exists folders1,
    readFolderList (snd (addFolder (Ok p) f)) = Ok folders1
    /\ healthy (snd (addFolder (Ok p) f))
    /\ count_occ string_dec folders1 p = 1%nat
    /\ len folders1 <= len folders + 1.
Proof.
  intros Hh Hr Hterm Hcount Hp Hfit.
  rewrite (addFolder_healthy _ _ _ Hh Hr).
  destruct (alreadyListed folders p) eqn:E; cbn [snd].
  - exists folders. repeat split; try apply Hh; try lia.
    + exact Hr.
    + apply count_occ_one_In; [|exact Hcount].
      apply alreadyListed_In. exact E.
  - exists (folders ++ [p])%list. split; [|split; [|split]].
    + apply readFolderList_appended; assumption.
    + apply healthy_setContents. exact Hh.
    + apply alreadyListed_false in E.
      apply (count_occ_not_In string_dec) in E.
      rewrite count_occ_app, E. simpl.
      destruct (string_dec p p); [reflexivity | congruence].
    + unfold len. rewrite length_app. simpl. lia.
Qed.

(** C5 (idempotence of add), as amended.  For a config file on which
    every system call succeeds, that loads without error, is empty or ends
    with a newline, and holds at most one entry equal to [p], and for a
    working directory [p] that is non-empty, without newline, without
    white space at either end and shorter than the scanner's buffer:
    after [add] has run twice from [p], the stored list holds exactly one
    entry equal to [p]; the second [add] prints the no-op message and
    leaves the file as the first left it. *)
Theorem add_idempotent (f : File) (p : string) (folders : list string) :
  healthy f ->
  readFolderList f = Ok folders ->
  terminated (contents f) ->
  (count_occ string_dec folders p <= 1)%nat ->
  trimmed p ->
  fitsBuffer p = true ->
  let first := addFolder (Ok p) f in
  let second := addFolder (Ok p) (snd first) in
  exists folders2,
    readFolderList (snd second) = Ok folders2
    /\ count_occ string_dec folders2 p = 1%nat
    /\ fst second
       = mkProcess ("Current folder already in the list: " ++ endl p) "" 0
    /\ snd second = snd first.
Proof.
  intros Hh Hr Hterm Hcount Hp Hfit first second. subst first second.
  destruct (after_add _ _ _ Hh Hr Hterm Hcount Hp Hfit)
    as [folders1 [Hr1 [Hh1 [Hc1 _]]]].
  rewrite (addFolder_healthy _ _ _ Hh1 Hr1).
  assert (E : alreadyListed folders1 p = true).
  { apply alreadyListed_In. apply (count_occ_In string_dec). lia. }
  rewrite E. cbn [fst snd]. exists folders1. auto.
Qed.

Lemma add_idempotent_witness :
  readFolderList
    (snd (addFolder (Ok "/home/u/proj")
            (snd (addFolder (Ok "/home/u/proj") (file (endl "/home/u/docs"))))))
  = Ok ["/home/u/docs"; "/home/u/proj"].
Proof.
  destruct (add_idempotent (file (endl "/home/u/docs")) "/home/u/proj"
              ["/home/u/docs"]) as [folders2 [H [_ [_ Hs]]]].
  - repeat split.
  - reflexivity.
  - right. exists "/home/u/docs". reflexivity.
  - simpl. lia.
  - repeat split. discriminate.
  - reflexivity.
  - rewrite Hs. reflexivity.
Defined.

(** C5 as stated fails: the store is not checked for duplicates when it
    is loaded, so on a file that already holds [/home/u/proj] twice, two
    runs of [add] from [/home/u/proj] leave two entries equal to it. *)
Lemma add_idempotent_counterexample :
  readFolderList
    (snd (addFolder (Ok "/home/u/proj")
            (snd (addFolder (Ok "/home/u/proj")
                    (file (endl "/home/u/proj" ++ endl "/home/u/proj"))))))
  = Ok ["/home/u/proj"; "/home/u/proj"].
Proof. reflexivity. Qed.

(** C6 (round trip of add and remove), as amended.  Under the conditions
    of C5 on the file and on [p], and for a list of fewer than [maxInt]
    entries: after [add] from [p] the stored list holds [p] at some
    index; [remove] with the 1-based number of that index prints the
    confirmation and exits 0, and afterwards the stored list no longer
    holds [p], every entry before the index keeps its index, and every
    entry after it has its index decreased by exactly 1. *)
Theorem add_remove_round_trip (f : File) (p : string) (folders : list string) :
  healthy f ->
  readFolderList f = Ok folders ->
  terminated (contents f) ->
  (count_occ string_dec folders p <= 1)%nat ->
  len folders < strconv.maxInt ->
  trimmed p ->
  fitsBuffer p = true ->
  let f1 := snd (addFolder (Ok p) f) in
  exists folders1,
    readFolderList f1 = Ok folders1
    /\ (exists i, nth_error folders1 i = Some p)
    /\ forall i,
         nth_error folders1 i = Some p ->
         let removed := removeFolder f1 (strconv.Itoa (Z.of_nat i + 1)) in
         fst removed = mkProcess ("Removed folder: " ++ endl p) "" 0
         /\ exists folders2,
              readFolderList (snd removed) = Ok folders2
              /\ ~ In p folders2
              /\ (forall j, (j < i)%nat ->
                            nth_error folders2 j = nth_error folders1 j)
              /\ (forall j, (i <= j)%nat ->
                            nth_error folders2 j = nth_error folders1 (S j)).
Proof.
  intros Hh Hr Hterm Hcount Hlen Hp Hfit f1. subst f1.
  destruct (after_add _ _ _ Hh Hr Hterm Hcount Hp Hfit)
    as [folders1 [Hr1 [Hh1 [Hc1 Hlen1]]]].
  exists folders1. split; [exact Hr1|]. split.
  { apply In_nth_error. apply (count_occ_In string_dec). lia. }
  intros i Hi removed. subst removed.
  destruct (nth_error_split _ _ Hi) as [l1 [l2 [E Hl1]]]. subst folders1 i.
  rewrite (removeFolder_numbered _ _ _ _ Hh1 Hr1) by lia.
  cbn [fst snd]. split; [reflexivity|].
  destruct (loaded_entries _ _ Hr1) as [Ht Hfits].
  apply Forall_app in Ht. destruct Ht as [Ht1 Ht2].
  apply Forall_cons_iff in Ht2. destruct Ht2 as [_ Ht2].
  rewrite forallb_app in Hfits. cbn [forallb] in Hfits.
  apply andb_true_iff in Hfits. destruct Hfits as [Hf1 Hf2].
  apply andb_true_iff in Hf2. destruct Hf2 as [_ Hf2].
  exists (l1 ++ l2)%list. split; [|split; [|split]].
  - apply readFolderList_rewritten.
    + apply Hh1.
    + reflexivity.
    + apply Forall_app. split; assumption.
    + rewrite forallb_app, Hf1, Hf2. reflexivity.
  - rewrite count_occ_app in Hc1. simpl in Hc1.
    destruct (string_dec p p); [|congruence].
    intros Hin. apply in_app_or in Hin.
    destruct Hin as [Hin|Hin]; apply (count_occ_In string_dec) in Hin; lia.
  - intros j Hj. rewrite !nth_error_app1 by lia. reflexivity.
  - intros j Hj. rewrite !nth_error_app2 by lia.
    replace (S j - List.length l1)%nat with (S (j - List.length l1)) by lia.
    reflexivity.
Qed.

Lemma add_remove_round_trip_witness :
  exists folders2,
    readFolderList
      (snd (removeFolder
              (snd (addFolder (Ok "/home/u/docs")
                      (file (endl "/home/u/proj" ++ endl "/home/u/src"))))
              "3"))
    = Ok folders2
    /\ ~ In "/home/u/docs" folders2.
Proof.
  destruct (add_remove_round_trip
              (file (endl "/home/u/proj" ++ endl "/home/u/src"))
              "/home/u/docs" ["/home/u/proj"; "/home/u/src"])
    as [folders1 [H1 [_ H]]].
  - repeat split.
  - reflexivity.
  - right. exists (endl "/home/u/proj" ++ "/home/u/src"). reflexivity.
  - simpl. lia.
  - vm_compute. reflexivity.
  - repeat split. discriminate.
  - reflexivity.
  - injection H1 as <-.
    destruct (H 2%nat eq_refl) as [_ [folders2 [H2 [Hnot _]]]].
    exists folders2. split; [exact H2 | exact Hnot].
Defined.

(** C6 as stated fails: on a file that already holds [/home/u/proj]
    twice, [add] from [/home/u/proj] leaves it at index 0 (number 1), and
    after [remove 1] the stored list still holds [/home/u/proj]. *)
Lemma add_remove_round_trip_counterexample :
  readFolderList
    (snd (addFolder (Ok "/home/u/proj")
            (file (endl "/home/u/proj" ++ endl "/home/u/proj"))))
  = Ok ["/home/u/proj"; "/home/u/proj"]
  /\ readFolderList
       (snd (removeFolder
               (snd (addFolder (Ok "/home/u/proj")
                       (file (endl "/home/u/proj" ++ endl "/home/u/proj"))))
               "1"))
     = Ok ["/home/u/proj"].
Proof. split; reflexivity. Qed.

(** ** Why the conditions on the file and on the path are there *)

(** A working directory whose name ends in a space is stored as it is and
    read back trimmed, so the second [add] does not find it and appends it
    again. *)
Example add_twice_trailing_space :
  snd (addFolder (Ok "/home/u/proj ")
         (snd (addFolder (Ok "/home/u/proj ") (file ""))))
  = file (endl "/home/u/proj " ++ endl "/home/u/proj ")
  /\ readFolderList (file (endl "/home/u/proj " ++ endl "/home/u/proj "))
     = Ok ["/home/u/proj"; "/home/u/proj"].
Proof. split; reflexivity. Qed.

(** On a file whose last line has no newline, the appended path continues
    that line. *)
Example add_after_unterminated_line :
  readFolderList (snd (addFolder (Ok "/b") (file "/a"))) = Ok ["/a/b"].
Proof. reflexivity. Qed.

(** The scenario of section 8: add, add, remove 1. *)
Example scenario :
  let s1 := snd (addFolder (Ok "/home/u/proj") (file "")) in
  let s2 := snd (addFolder (Ok "/home/u/docs") s1) in
  let s3 := snd (removeFolder s2 "1") in
  stdout (listFolders s2)
  = endl "Available folders:" ++ endl "1. /home/u/proj" ++ endl "2. /home/u/docs"
  /\ stdout (listFolders s3)
     = endl "Available folders:" ++ endl "1. /home/u/docs".
Proof. split; reflexivity. Qed.

(** * Further properties of the store *)

(** ** What [readFolderList] returns *)

(** X1 (entries of a loaded list).  Whatever the bytes of the file,
    every entry of a list that [readFolderList] returns is non-empty,
    holds no newline, has white space at neither end, is shorter than the
    scanner's buffer, and is left as it is by [TrimSpace]. *)
Theorem loaded_entry_clean (f : File) (folders : list string) (p : string) :
  readFolderList f = Ok folders ->
  In p folders ->
  trimmed p /\ fitsBuffer p = true /\ strings.TrimSpace p = p.
Proof.
  intros Hr Hin. destruct (loaded_entries _ _ Hr) as [Ht Hf].
  rewrite Forall_forall in Ht. rewrite forallb_forall in Hf.
  pose proof (Ht p Hin) as Hp. split; [exact Hp|]. split.
  - apply Hf. exact Hin.
  - apply trimmed_TrimSpace. exact Hp.
Qed.

Lemma loaded_entry_clean_witness :
  trimmed "/c/d"
  /\ fitsBuffer "/c/d" = true /\ strings.TrimSpace "/c/d" = "/c/d".
Proof.
  apply (loaded_entry_clean
           (file (endl "" ++ endl "/a/b  " ++ "   /c/d" ++ String cr ""))
           ["/a/b"; "/c/d"] "/c/d").
  - reflexivity.
  - right. left. reflexivity.
Defined.



Lemma TrimSpace_append_cr (l : string) :
  strings.TrimSpace (l ++ String cr "") = strings.TrimSpace l.
Proof.
  unfold strings.TrimSpace. rewrite trimLeft_append_cr.
  destruct (String.eqb_spec (strings.trimLeft l) "") as [E|E].
  - rewrite E. reflexivity.
  - rewrite trimRight_append_cr. reflexivity.
Qed.

Lemma fitsBuffer_shorter (a b : string) :
  (String.length a <= String.length b)%nat ->
  fitsBuffer b = true -> fitsBuffer a = true.
Proof.
  unfold fitsBuffer. intros Hle Hb.
  apply Nat.ltb_lt in Hb. apply Nat.ltb_lt. lia.
Qed.

(** X3 (line endings).  A file whose lines end in carriage return and
    newline is read as the same list as the file with the same lines
    ending in a newline alone, as long as the longer lines fit the
    scanner's buffer. *)
Theorem crlf_same_list (ls : list string) :
  Forall (fun l => occurs nl l = false) ls ->
  forallb fitsBuffer (map (fun l => l ++ String cr "") ls) = true ->
  readFolderList (file (rewritten (map (fun l => l ++ String cr "") ls)))
  = readFolderList (file (rewritten ls)).
Proof.
  intros Hnl Hfit.
  rewrite !readFolderList_spec by reflexivity. cbn [contents file].
  rewrite !splitLines_rewritten; [ | exact Hnl | ].
  - rewrite Hfit.
    assert (Hfit' : forallb fitsBuffer ls = true).
    { apply forallb_forall. intros l Hl.
      rewrite forallb_forall in Hfit.
      apply (fitsBuffer_shorter l (l ++ String cr "")).
      - rewrite length_append. lia.
      - apply Hfit. apply in_map_iff. exists l. auto. }
    rewrite Hfit'. f_equal. unfold loadAll.
    rewrite !splitLines_rewritten; [ | exact Hnl | ].
    + rewrite map_map. f_equal. apply map_ext. apply TrimSpace_append_cr.
    + apply Forall_map. eapply Forall_impl; [|exact Hnl].
      intros l Hl. cbn beta. rewrite occurs_append, Hl. reflexivity.
  - apply Forall_map. eapply Forall_impl; [|exact Hnl].
    intros l Hl. cbn beta. rewrite occurs_append, Hl. reflexivity.
Qed.

Lemma crlf_same_list_witness :
  readFolderList
    (file (rewritten (map (fun l => l ++ String cr "") ["/a/b"; ""; " /c d"])))
  = readFolderList (file (rewritten ["/a/b"; ""; " /c d"])).
Proof.
  apply (crlf_same_list ["/a/b"; ""; " /c d"]).
  - repeat constructor.
  - reflexivity.
Defined.

(** ** add *)


Lemma not_trimmed_not_listed (f : File) (folders : list string) (p : string) :
  readFolderList f = Ok folders -> ~ trimmed p ->
  alreadyListed folders p = false.
Proof.
  intros Hr Hp. apply alreadyListed_false. intros Hin. apply Hp.
  destruct (loaded_entries _ _ Hr) as [Ht _].
  rewrite Forall_forall in Ht. apply Ht. exact Hin.
Qed.

(** X5 (a working directory that is never recognised).  The stored
    entries are compared with the working directory as [os.Getwd] returns
    it, but they are read back trimmed.  So from a working directory that
    is empty, holds a newline, or begins or ends with white space, [add]
    never finds the directory listed: on a file that loads and can be
    written, every run appends it once more. *)
Theorem add_untrimmed_always_appends
  (f : File) (folders : list string) (p : string) :
  healthy f ->
  readFolderList f = Ok folders ->
  ~ trimmed p ->
  addFolder (Ok p) f
  = (mkProcess ("Added current folder to jump list: " ++ endl p) "" 0,
     setContents f (contents f ++ endl p)).
Proof.
  intros Hh Hr Hp. rewrite (addFolder_healthy _ _ _ Hh Hr).
  rewrite (not_trimmed_not_listed _ _ _ Hr Hp). reflexivity.
Qed.

Lemma add_untrimmed_always_appends_witness :
  addFolder (Ok "/home/u/proj ") (file (endl "/home/u/proj "))
  = (mkProcess ("Added current folder to jump list: " ++ endl "/home/u/proj ")
               "" 0,
     file (endl "/home/u/proj " ++ endl "/home/u/proj ")).
Proof.
  apply (add_untrimmed_always_appends
           (file (endl "/home/u/proj ")) ["/home/u/proj"] "/home/u/proj ").
  - split; [|split; [|split]]; reflexivity.
  - reflexivity.
  - intros [_ [_ [_ H]]]. vm_compute in H. discriminate.
Defined.

Lemma joined_app (a b : list string) :
  joined (a ++ b) = joined a ++ joined b.
Proof.
  unfold joined. induction a as [|x a IH]; [reflexivity|].
  cbn [app fold_right]. rewrite IH, append_assoc. reflexivity.
Qed.

Lemma combine_seq_snoc (folders : list string) (p : string) (s : nat) :
  combine (seq s (List.length (folders ++ [p]))) (folders ++ [p])
  = (combine (seq s (List.length folders)) folders
     ++ [((s + List.length folders)%nat, p)])%list.
Proof.
  revert s. induction folders as [|g folders IH]; intros s.
  - cbn. rewrite Nat.add_0_r. reflexivity.
  - cbn [app List.length seq combine]. rewrite IH.
    replace (S s + List.length folders)%nat
      with (s + S (List.length folders))%nat by lia.
    reflexivity.
Qed.

Lemma numbered_snoc (folders : list string) (p : string) :
  numbered (folders ++ [p])
  = (numbered folders
     ++ [endl (strconv.Itoa (len folders + 1) ++ ". " ++ p)])%list.
Proof.
  unfold numbered. rewrite combine_seq_snoc, map_app.
  cbn [map]. unfold numberedLine at 2. cbn [fst snd]. unfold len.
  replace (Z.of_nat (1 + List.length folders))
    with (Z.of_nat (List.length folders) + 1) by lia.
  reflexivity.
Qed.

(** X6 (add puts the new entry last).  On a file in order (it loads, is
    empty or ends with a newline, every system call succeeds), [add] from
    a clean working directory that is not yet listed makes the stored list
    the old list followed by the new entry: the entries already listed
    keep their numbers, and [list] then prints the old numbered lines
    followed by the new entry under the next number. *)
Theorem add_appends_last (f : File) (folders : list string) (p : string) :
  healthy f ->
  readFolderList f = Ok folders ->
  terminated (contents f) ->
  trimmed p ->
  fitsBuffer p = true ->
  ~ In p folders ->
  readFolderList (snd (addFolder (Ok p) f)) = Ok (folders ++ [p])%list
  /\ listFolders (snd (addFolder (Ok p) f))
     = mkProcess (endl "Available folders:" ++ joined (numbered folders)
                  ++ endl (strconv.Itoa (len folders + 1) ++ ". " ++ p))
                 "" 0.
Proof.
  intros Hh Hr Hterm Hp Hfit Hnot.
  rewrite (addFolder_healthy _ _ _ Hh Hr).
  apply alreadyListed_false in Hnot. rewrite Hnot. cbn [snd].
  pose proof (readFolderList_appended _ _ _ Hr Hterm Hp Hfit) as Hr1.
  split; [exact Hr1|].
  unfold listFolders. rewrite Hr1.
  rewrite len_nonempty by (destruct folders; discriminate).
  rewrite (listLoop_numbered _ 0). fold (numbered (folders ++ [p])).
  rewrite numbered_snoc, joined_app. cbn [joined fold_right].
  rewrite append_nil_r. reflexivity.
Qed.

Lemma add_appends_last_witness :
  readFolderList (snd (addFolder (Ok "/home/u/docs") (file (endl "/home/u/proj"))))
  = Ok ["/home/u/proj"; "/home/u/docs"].
Proof.
  apply (add_appends_last (file (endl "/home/u/proj")) ["/home/u/proj"]
           "/home/u/docs").
  - split; [|split; [|split]]; reflexivity.
  - reflexivity.
  - right. exists "/home/u/proj". reflexivity.
  - split; [discriminate|]. split; [|split]; reflexivity.
  - reflexivity.
  - intros [H|[]]. discriminate.
Defined.

(** X7 (add keeps the list free of duplicates).  On a file in order
    whose list has no duplicate, [add] from a clean working directory
    leaves a file that loads into a list without duplicates, which holds
    the working directory and every entry of the old list. *)
Theorem add_keeps_NoDup (f : File) (folders : list string) (p : string) :
  healthy f ->
  readFolderList f = Ok folders ->
  terminated (contents f) ->
  trimmed p ->
  fitsBuffer p = true ->
  NoDup folders ->
  exists folders1,
    readFolderList (snd (addFolder (Ok p) f)) = Ok folders1
    /\ NoDup folders1
    /\ In p folders1
    /\ incl folders folders1.
Proof.
  intros Hh Hr Hterm Hp Hfit Hnd.
  rewrite (addFolder_healthy _ _ _ Hh Hr).
  destruct (alreadyListed folders p) eqn:E; cbn [snd].
  - exists folders. split; [exact Hr|]. split; [exact Hnd|].
    split; [apply alreadyListed_In; exact E | apply incl_refl].
  - exists (folders ++ [p])%list. split; [|split; [|split]].
    + apply readFolderList_appended; assumption.
    + apply alreadyListed_false in E.
      apply NoDup_app; [exact Hnd | repeat constructor; intros [] | ].
      intros x Hx [<-|[]]. exact (E Hx).
    + apply in_or_app. right. left. reflexivity.
    + apply incl_appl, incl_refl.
Qed.

Lemma add_keeps_NoDup_witness :
  exists folders1,
    readFolderList
      (snd (addFolder (Ok "/home/u/proj") (file (endl "/home/u/proj"))))
    = Ok folders1
    /\ NoDup folders1.
Proof.
  destruct (add_keeps_NoDup (file (endl "/home/u/proj")) ["/home/u/proj"]
              "/home/u/proj") as [folders1 [H1 [H2 _]]].
  - split; [|split; [|split]]; reflexivity.
  - reflexivity.
  - right. exists "/home/u/proj". reflexivity.
  - split; [discriminate|]. split; [|split]; reflexivity.
  - reflexivity.
  - repeat constructor. intros [].
  - exists folders1. split; assumption.
Defined.

(** ** remove *)

Lemma removeScan_first (arg : string) (l1 l2 : list string) (p : string) (i : Z) :
  matches arg p ->
  (forall g, In g l1 -> ~ matches arg g) ->
  removeScan (l1 ++ p :: l2) arg i = i + len l1.
Proof.
  intros Hp. revert i. induction l1 as [|g l1 IH]; intros i Hno; simpl.
  - apply matches_eqb in Hp. rewrite Hp. unfold len. simpl. lia.
  - assert (Hg : ~ matches arg g) by (apply Hno; left; reflexivity).
    apply matches_eqb_false in Hg. rewrite Hg.
    rewrite IH by (intros h Hh; apply Hno; right; exact Hh).
    unfold len. simpl List.length. lia.
Qed.

(** What [remove] does once its matching code has selected the entry
    after [l1]. *)
Lemma removeFolder_at (f : File) (arg : string) (l1 l2 : list string) (p : string) :
  createErr f = None ->
  readFolderList f = Ok (l1 ++ p :: l2)%list ->
  indexToRemove (l1 ++ p :: l2) arg = Z.of_nat (List.length l1) ->
  removeFolder f arg
  = match writeLoop (l1 ++ l2) (setContents f "") with
    | (Some err, f1) => (die ("Error writing to config file: " ++ endl err), f1)
    | (None, f1) => (printed ("Removed folder: " ++ endl p), f1)
    end.
Proof.
  intros Hc Hr Hi. unfold removeFolder. rewrite Hr.
  rewrite len_nonempty by (destruct l1; discriminate).
  cbv zeta. rewrite Hi.
  destruct (Z.eqb_spec (Z.of_nat (List.length l1)) (-1)); [lia|].
  unfold index. destruct (Z.ltb_spec (Z.of_nat (List.length l1)) 0); [lia|].
  rewrite Nat2Z.id, nth_error_app2, Nat.sub_diag by lia. cbn [nth_error].
  rewrite removeAt_split. unfold Create. rewrite Hc. reflexivity.
Qed.

Lemma reload_rest (f : File) (l1 l2 : list string) (p : string) :
  readFolderList f = Ok (l1 ++ p :: l2)%list ->
  readFolderList (setContents f (rewritten (l1 ++ l2))) = Ok (l1 ++ l2)%list.
Proof.
  intros Hr. destruct (loaded_entries _ _ Hr) as [Ht Hfits].
  destruct (readFolderList_Ok _ _ Hr) as [Ho _].
  apply Forall_app in Ht. destruct Ht as [Ht1 Ht2].
  apply Forall_cons_iff in Ht2. destruct Ht2 as [_ Ht2].
  rewrite forallb_app in Hfits. cbn [forallb] in Hfits.
  apply andb_true_iff in Hfits. destruct Hfits as [Hf1 Hf2].
  apply andb_true_iff in Hf2. destruct Hf2 as [_ Hf2].
  apply readFolderList_rewritten.
  - exact Ho.
  - reflexivity.
  - apply Forall_app. split; assumption.
  - rewrite forallb_app, Hf1, Hf2. reflexivity.
Qed.

(** X8 (remove by name).  On a file that loads and on which every system
    call succeeds, a token that is not a number in range and that matches
    an entry by base name or by full path removes the first such entry and
    no other: [removeFolder] prints the confirmation naming it, exits 0,
    rewrites the file as the remaining entries, each followed by a
    newline, in their order, and the file then loads as those entries. *)
Theorem remove_by_name
  (f : File) (arg : string) (l1 l2 : list string) (p : string) :
  healthy f ->
  readFolderList f = Ok (l1 ++ p :: l2)%list ->
  (forall n, ~ numeric arg (l1 ++ p :: l2) n) ->
  matches arg p ->
  (forall g, In g l1 -> ~ matches arg g) ->
  removeFolder f arg
  = (mkProcess ("Removed folder: " ++ endl p) "" 0,
     setContents f (rewritten (l1 ++ l2)))
  /\ readFolderList (snd (removeFolder f arg)) = Ok (l1 ++ l2)%list.
Proof.
  intros [_ [_ [Hc Hw]]] Hr Hnum Hp Hno.
  assert (E : removeFolder f arg
              = (mkProcess ("Removed folder: " ++ endl p) "" 0,
                 setContents f (rewritten (l1 ++ l2)))).
  { rewrite (removeFolder_at f arg l1 l2 p Hc Hr).
    - rewrite writeLoop_rewritten by exact Hw. reflexivity.
    - rewrite (indexToRemove_not_numeric _ _ Hnum).
      rewrite (removeScan_first _ _ _ _ _ Hp Hno). reflexivity. }
  split; [exact E|]. rewrite E. cbn [snd]. apply (reload_rest _ _ _ _ Hr).
Qed.

Lemma remove_by_name_witness :
  removeFolder (file (endl "/a/b" ++ endl "/c/d" ++ endl "/e/d")) "d"
  = (mkProcess ("Removed folder: " ++ endl "/c/d") "" 0,
     file (endl "/a/b" ++ endl "/e/d")).
Proof.
  apply (remove_by_name (file (endl "/a/b" ++ endl "/c/d" ++ endl "/e/d")) "d"
           ["/a/b"] ["/e/d"] "/c/d").
  - split; [|split; [|split]]; reflexivity.
  - reflexivity.
  - intros n [Hn _]. vm_compute in Hn. discriminate.
  - left. reflexivity.
  - intros g [<-|[]] [Hg|Hg]; vm_compute in Hg; discriminate.
Defined.

Lemma indexToRemove_range (folders : list string) (arg : string) :
  indexToRemove folders arg = -1
  \/ 0 <= indexToRemove folders arg < len folders.
Proof.
  assert (Hs : removeScan folders arg 0 = -1
               \/ 0 <= removeScan folders arg 0 < len folders).
  { destruct (scans_agree arg folders 0 (Z.le_refl 0))
      as [[H _] | [p [H _]]]; [left; exact H | right; lia]. }
  unfold indexToRemove.
  destruct (strconv.Atoi arg) as [num|]; [|exact Hs].
  destruct (Z.ltb_spec 0 num); [|exact Hs].
  destruct (Z.leb_spec num (len folders)); [|exact Hs].
  right. cbn. lia.
Qed.

(** X9 (remove never adds, and keeps the list free of duplicates).  On a
    file that loads and on which every system call succeeds, and for every
    token, the file loads again after [removeFolder]; the new list has at
    most as many entries as the old one, every entry of it was in the old
    list, and it has no duplicate when the old list had none. *)
Theorem remove_keeps_NoDup (f : File) (arg : string) (folders : list string) :
  healthy f ->
  readFolderList f = Ok folders ->
  exists folders1,
    readFolderList (snd (removeFolder f arg)) = Ok folders1
    /\ (List.length folders1 <= List.length folders)%nat
    /\ incl folders1 folders
    /\ (NoDup folders -> NoDup folders1).
Proof.
  intros Hh Hr.
  assert (Hsame : snd (removeFolder f arg) = f ->
                  exists folders1,
                    readFolderList (snd (removeFolder f arg)) = Ok folders1
                    /\ (List.length folders1 <= List.length folders)%nat
                    /\ incl folders1 folders
                    /\ (NoDup folders -> NoDup folders1)).
  { intros ->. exists folders. split; [exact Hr|]. split; [lia|].
    split; [apply incl_refl | auto]. }
  destruct (indexToRemove_range folders arg) as [Hi|Hi].
  - apply Hsame. unfold removeFolder. rewrite Hr.
    destruct (len folders =? 0); [reflexivity|].
    cbv zeta. rewrite Hi. reflexivity.
  - destruct (index_Some folders _ Hi) as [p Hp].
    apply index_nth_error in Hp.
    destruct (nth_error_split _ _ Hp) as [l1 [l2 [E Hl1]]]. subst folders.
    assert (Hidx : indexToRemove (l1 ++ p :: l2) arg
                   = Z.of_nat (List.length l1)) by lia.
    destruct Hh as [_ [_ [Hc Hw]]].
    rewrite (removeFolder_at f arg l1 l2 p Hc Hr Hidx).
    rewrite writeLoop_rewritten by exact Hw. cbn [snd contents setContents].
    exists (l1 ++ l2)%list. split; [|split; [|split]].
    + exact (reload_rest _ _ _ _ Hr).
    + rewrite !length_app. simpl. lia.
    + intros x Hx. apply in_app_or in Hx. apply in_or_app.
      destruct Hx as [Hx|Hx]; [left; exact Hx | right; right; exact Hx].
    + apply NoDup_remove_1.
Qed.

Lemma remove_keeps_NoDup_witness :
  exists folders1,
    readFolderList (snd (removeFolder (file (endl "/a/b" ++ endl "/c/d")) "b"))
    = Ok folders1
    /\ incl folders1 ["/a/b"; "/c/d"].
Proof.
  destruct (remove_keeps_NoDup (file (endl "/a/b" ++ endl "/c/d")) "b"
              ["/a/b"; "/c/d"]) as [folders1 [H1 [_ [H2 _]]]].
  - split; [|split; [|split]]; reflexivity.
  - reflexivity.
  - exists folders1. split; assumption.
Defined.

(** X10 (a failed write loses the list).  [removeFolder] truncates the
    file before it writes the remaining entries.  When the file loads two
    entries or more, the token selects one of them, [os.Create] succeeds
    and the writes fail, the run exits with status 1 after reporting the
    error, and the file is left empty: the entries that were to remain are
    lost with the one that was removed. *)
Theorem remove_write_failure
  (f : File) (arg : string) (folders : list string) (err : error) :
  readFolderList f = Ok folders ->
  createErr f = None ->
  writeErr f = Some err ->
  (2 <= List.length folders)%nat ->
  indexToRemove folders arg <> -1 ->
  removeFolder f arg
  = (mkProcess "" ("Error writing to config file: " ++ endl err) 1,
     setContents f "").
Proof.
  intros Hr Hc Hw Hlen Hi.
  destruct (indexToRemove_range folders arg) as [Hi'|Hi']; [congruence|].
  destruct (index_Some folders _ Hi') as [p Hp].
  apply index_nth_error in Hp.
  destruct (nth_error_split _ _ Hp) as [l1 [l2 [E Hl1]]]. subst folders.
  assert (Hidx : indexToRemove (l1 ++ p :: l2) arg
                 = Z.of_nat (List.length l1)) by lia.
  rewrite (removeFolder_at f arg l1 l2 p Hc Hr Hidx).
  rewrite length_app in Hlen. simpl in Hlen.
  destruct (l1 ++ l2)%list as [|g rest] eqn:E.
  - apply (f_equal (@List.length string)) in E.
    rewrite length_app in E. simpl in E. lia.
  - cbn [writeLoop]. unfold WriteString. cbn [writeErr setContents].
    rewrite Hw. reflexivity.
Qed.

Lemma remove_write_failure_witness :
  removeFolder (mkFile (endl "/a/b" ++ endl "/c/d") None None None
                       (Some "no space left on device")) "1"
  = (mkProcess "" ("Error writing to config file: "
                   ++ endl "no space left on device") 1,
     mkFile "" None None None (Some "no space left on device")).
Proof.
  apply (remove_write_failure
           (mkFile (endl "/a/b" ++ endl "/c/d") None None None
                   (Some "no space left on device"))
           "1" ["/a/b"; "/c/d"] "no space left on device").
  - reflexivity.
  - reflexivity.
  - reflexivity.
  - simpl. lia.
  - vm_compute. discriminate.
Defined.

(** ** jump *)

Lemma upToSeparator_no_separator (s : string) :
  occurs filepath.Separator (filepath.upToSeparator s) = false.
Proof.
  induction s as [|c s IH]; [reflexivity|]. simpl.
  destruct (filepath.IsPathSeparator c) eqn:E; [reflexivity|].
  simpl. unfold filepath.IsPathSeparator in E. rewrite E. exact IH.
Qed.

(** A base name is ["/"] or holds no separator. *)
Lemma Base_shape (path : string) :
  filepath.Base path = "/" \/ occurs "/" (filepath.Base path) = false.
Proof.
  unfold filepath.Base.
  destruct (String.eqb path ""); [right; reflexivity|].
  destruct (String.eqb _ ""); [left; reflexivity|].
  right. rewrite occurs_strRev. apply upToSeparator_no_separator.
Qed.

Lemma jumpScan_full_path (folders : list string) (p : string) :
  In p folders ->
  (forall g, filepath.Base g <> p) ->
  jumpScan folders p = printed p.
Proof.
  intros Hin Hb. induction folders as [|g folders IH]; [destruct Hin|].
  simpl. destruct (String.eqb_spec (filepath.Base g) p) as [E|_];
    [exfalso; exact (Hb g E)|].
  destruct (String.eqb_spec g p) as [->|Hg]; [reflexivity|].
  simpl. apply IH. destruct Hin as [Hin|Hin]; [congruence | exact Hin].
Qed.

(** X11 (add, then jump by full path).  On a file in order, after [add]
    from a clean absolute working directory other than the root,
    [jumpToFolder] with that directory as token prints exactly that
    directory and exits 0, whatever else is listed: an absolute path is no
    number, and no base name equals it. *)
Theorem add_then_jump (f : File) (folders : list string) (rest : string) :
  healthy f ->
  readFolderList f = Ok folders ->
  terminated (contents f) ->
  trimmed (String "/" rest) ->
  fitsBuffer (String "/" rest) = true ->
  rest <> "" ->
  jumpToFolder (snd (addFolder (Ok (String "/" rest)) f)) (String "/" rest)
  = mkProcess (String "/" rest) "" 0.
Proof.
  intros Hh Hr Hterm Hp Hfit Hrest.
  assert (H1 : exists folders1,
             readFolderList (snd (addFolder (Ok (String "/" rest)) f))
             = Ok folders1 /\ In (String "/" rest) folders1).
  { rewrite (addFolder_healthy _ _ _ Hh Hr).
    destruct (alreadyListed folders (String "/" rest)) eqn:E; cbn [snd].
    - exists folders. split; [exact Hr | apply alreadyListed_In; exact E].
    - exists (folders ++ [String "/" rest])%list. split.
      + apply readFolderList_appended; assumption.
      + apply in_or_app. right. left. reflexivity. }
  destruct H1 as [folders1 [Hr1 Hin]].
  unfold jumpToFolder. rewrite Hr1. unfold jumpIn.
  change (strconv.Atoi (String "/" rest)) with (@None Z).
  apply jumpScan_full_path; [exact Hin|].
  intros g Hg. destruct (Base_shape g) as [Hb|Hb]; rewrite Hg in Hb.
  - injection Hb as Hb. exact (Hrest Hb).
  - discriminate.
Qed.

Lemma add_then_jump_witness :
  jumpToFolder
    (snd (addFolder (Ok "/home/u/proj")
            (file (endl "/srv/proj" ++ endl "/home/u/docs"))))
    "/home/u/proj"
  = mkProcess "/home/u/proj" "" 0.
Proof.
  apply (add_then_jump (file (endl "/srv/proj" ++ endl "/home/u/docs"))
           ["/srv/proj"; "/home/u/docs"] "home/u/proj").
  - split; [|split; [|split]]; reflexivity.
  - reflexivity.
  - right. exists (endl "/srv/proj" ++ "/home/u/docs"). reflexivity.
  - split; [discriminate|]. split; [|split]; reflexivity.
  - reflexivity.
  - discriminate.
Defined.

Lemma Atoi_plus_string_of_uint (d : Decimal.uint) :
  d <> Decimal.Nil ->
  strconv.Atoi (String "+" (NilEmpty.string_of_uint d))
  = match strconv.digits (NilEmpty.string_of_uint d) 0 with
    | Some un =>
        if (strconv.minInt <=? un) && (un <=? strconv.maxInt)
        then Some un else None
    | None => None
    end.
Proof. destruct d; [congruence | reflexivity ..]. Qed.

Lemma Atoi_zero_string_of_uint (d : Decimal.uint) :
  strconv.Atoi (String "0" (NilEmpty.string_of_uint d))
  = match strconv.digits (NilEmpty.string_of_uint d) 0 with
    | Some un =>
        if (strconv.minInt <=? un) && (un <=? strconv.maxInt)
        then Some un else None
    | None => None
    end.
Proof. reflexivity. Qed.

Lemma Atoi_Itoa_spellings (n : Z) :
  0 <= n <= strconv.maxInt ->
  strconv.Atoi (String "+" (strconv.Itoa n)) = Some n
  /\ strconv.Atoi (String "0" (strconv.Itoa n)) = Some n.
Proof.
  intros Hn. pose proof (Atoi_Itoa n Hn) as H.
  unfold strconv.Itoa in *.
  assert (Hnil : N.to_uint (Z.to_N n) <> Decimal.Nil).
  { destruct (Z.to_N n); [discriminate|].
    apply DecimalPos.Unsigned.to_uint_nonnil. }
  rewrite (Atoi_string_of_uint _ Hnil) in H.
  rewrite (Atoi_plus_string_of_uint _ Hnil), Atoi_zero_string_of_uint.
  split; exact H.
Qed.

Lemma jumpIn_numeric (folders : list string) (arg : string) (i : nat) (p : string) :
  strconv.Atoi arg = Some (Z.of_nat i + 1) ->
  nth_error folders i = Some p ->
  jumpIn folders arg = printed p /\ indexToRemove folders arg = Z.of_nat i.
Proof.
  intros Ha Hp.
  assert (Hlen : (i < List.length folders)%nat).
  { apply nth_error_Some. congruence. }
  unfold jumpIn, indexToRemove, len. rewrite Ha.
  destruct (Z.ltb_spec 0 (Z.of_nat i + 1)); [|lia].
  destruct (Z.leb_spec (Z.of_nat i + 1) (Z.of_nat (List.length folders)));
    [|lia].
  cbn [andb]. rewrite Z.add_simpl_r. unfold index.
  destruct (Z.ltb_spec (Z.of_nat i) 0); [lia|].
  rewrite Nat2Z.id, Hp. split; reflexivity.
Qed.

Lemma numbered_from_nth (folders : list string) :
  forall (i s : nat) (p : string),
    nth_error folders i = Some p ->
    nth_error (map numberedLine (combine (seq s (List.length folders)) folders))
              i
    = Some (numberedLine ((s + i)%nat, p)).
Proof.
  induction folders as [|g folders IH]; intros [|i] s p Hp;
    try discriminate; cbn [List.length seq combine map nth_error] in *.
  - injection Hp as <-. rewrite Nat.add_0_r. reflexivity.
  - rewrite (IH i (S s) p Hp).
    replace (S s + i)%nat with (s + S i)%nat by lia. reflexivity.
Qed.

(** X12 (the numbers that list prints).  For a list of at most [maxInt]
    entries, the number that [listFolders] prints in front of an entry,
    given back as token, makes [jumpToFolder] print that entry and makes
    the matching code of [removeFolder] select it; the same number written
    with a plus sign or with a leading zero does the same. *)
Theorem listed_number_selects (folders : list string) (i : nat) (p : string) :
  nth_error folders i = Some p ->
  len folders <= strconv.maxInt ->
  let number := strconv.Itoa (Z.of_nat i + 1) in
  nth_error (numbered folders) i = Some (endl (number ++ ". " ++ p))
  /\ jumpIn folders number = printed p
  /\ indexToRemove folders number = Z.of_nat i
  /\ jumpIn folders (String "+" number) = printed p
  /\ jumpIn folders (String "0" number) = printed p.
Proof.
  intros Hp Hlen number. subst number.
  assert (Hi : (i < List.length folders)%nat).
  { apply nth_error_Some. congruence. }
  assert (Hn : 0 <= Z.of_nat i + 1 <= strconv.maxInt)
    by (unfold len in Hlen; lia).
  destruct (Atoi_Itoa_spellings _ Hn) as [Hplus Hzero].
  split; [|split; [|split; [|split]]].
  - unfold numbered. rewrite (numbered_from_nth folders i 1 p Hp).
    unfold numberedLine. cbn [fst snd].
    replace (Z.of_nat (1 + i)) with (Z.of_nat i + 1) by lia. reflexivity.
  - apply (jumpIn_numeric folders _ i p (Atoi_Itoa _ Hn) Hp).
  - apply (jumpIn_numeric folders _ i p (Atoi_Itoa _ Hn) Hp).
  - apply (jumpIn_numeric folders _ i p Hplus Hp).
  - apply (jumpIn_numeric folders _ i p Hzero Hp).
Qed.

Lemma listed_number_selects_witness :
  jumpIn ["/a/b"; "/c/d"; "/e/f"] "2" = printed "/c/d"
  /\ jumpIn ["/a/b"; "/c/d"; "/e/f"] "+2" = printed "/c/d"
  /\ jumpIn ["/a/b"; "/c/d"; "/e/f"] "02" = printed "/c/d".
Proof.
  destruct (listed_number_selects ["/a/b"; "/c/d"; "/e/f"] 1 "/c/d")
    as [_ [H1 [_ [H2 H3]]]].
  - reflexivity.
  - vm_compute. discriminate.
  - split; [exact H1 | split; [exact H2 | exact H3]].
Defined.

(** * setup and main *)

Lemma prefix_append (x c : string) : String.prefix x (x ++ c) = true.
Proof.
  induction x as [|a x IH]; simpl; [destruct c; reflexivity|].
  destruct (ascii_dec a a); [exact IH | congruence].
Qed.

Lemma Contains_append_l (a b x : string) :
  strings.Contains b x = true -> strings.Contains (a ++ b) x = true.
Proof.
  intros H. induction a as [|c a IH]; [exact H|].
  cbn [append strings.Contains]. rewrite IH. apply orb_true_r.
Qed.

Lemma Contains_middle (a x c : string) :
  strings.Contains (a ++ x ++ c) x = true.
Proof.
  apply Contains_append_l.
  destruct (x ++ c) eqn:E; cbn [strings.Contains]; rewrite <- E;
    rewrite prefix_append; reflexivity.
Qed.

(** The line that [setupJumper] appends mentions the script path. *)
Lemma Contains_sourceCmd (content scriptPath : string) :
  strings.Contains (content ++ sourceCmd scriptPath) scriptPath = true.
Proof.
  unfold sourceCmd, endl.
  replace (content
           ++ String nl (("# Jumper configuration" ++ String nl "")
                         ++ ("source " ++ scriptPath) ++ String nl ""))
    with ((content ++ String nl ("# Jumper configuration" ++ String nl "source "))
          ++ scriptPath ++ String nl "").
  - apply Contains_middle.
  - rewrite !append_assoc. cbn [append]. rewrite ?append_assoc. reflexivity.
Qed.

Lemma rcLoop_snd_cons (sp rcFile : string) (rest : list string)
      (h : string -> RcFile) :
  snd (rcLoop sp (rcFile :: rest) h)
  = if rcPresent (h rcFile) then
      match rcReadErr (h rcFile) with
      | Some _ => snd (rcLoop sp rest h)
      | None =>
          if strings.Contains (rcContent (h rcFile)) sp then h
          else
            match rcOpenErr (h rcFile), rcWriteErr (h rcFile) with
            | None, None =>
                update h rcFile (rcAppend (h rcFile) (sourceCmd sp))
            | _, _ => snd (rcLoop sp rest h)
            end
      end
    else snd (rcLoop sp rest h).
Proof.
  cbn [rcLoop].
  destruct (rcPresent (h rcFile)), (rcReadErr (h rcFile)),
    (strings.Contains (rcContent (h rcFile)) sp),
    (rcOpenErr (h rcFile)), (rcWriteErr (h rcFile));
    try reflexivity;
    destruct (rcLoop sp rest h) as [[out err] h']; reflexivity.
Qed.

(** The loop touches none but the names it is given. *)
Lemma rcLoop_frame (sp : string) (rcFiles : list string) :
  forall (h : string -> RcFile) (n : string),
    ~ In n rcFiles -> snd (rcLoop sp rcFiles h) n = h n.
Proof.
  induction rcFiles as [|a rest IH]; intros h n Hn; [reflexivity|].
  assert (Hrest : snd (rcLoop sp rest h) n = h n).
  { apply IH. intros Hin. apply Hn. right. exact Hin. }
  rewrite rcLoop_snd_cons.
  destruct (rcPresent (h a)); [|exact Hrest].
  destruct (rcReadErr (h a)); [exact Hrest|].
  destruct (strings.Contains (rcContent (h a)) sp); [reflexivity|].
  destruct (rcOpenErr (h a)); [exact Hrest|].
  destruct (rcWriteErr (h a)); [exact Hrest|].
  unfold update. destruct (String.eqb_spec n a) as [->|_]; [|reflexivity].
  exfalso. apply Hn. left. reflexivity.
Qed.


(** A second pass over the same names changes nothing more. *)
Lemma rcLoop_idempotent (sp : string) (rcFiles : list string) :
  NoDup rcFiles ->
  forall (h : string -> RcFile) (n : string),
    snd (rcLoop sp rcFiles (snd (rcLoop sp rcFiles h))) n
    = snd (rcLoop sp rcFiles h) n.
Proof.
  induction 1 as [|a rest Ha _ IH]; intros h n; [reflexivity|].
  rewrite (rcLoop_snd_cons sp a rest h).
  assert (Hskip :
    (rcPresent (h a) = false \/ rcReadErr (h a) <> None
     \/ (strings.Contains (rcContent (h a)) sp = false
         /\ (rcOpenErr (h a) <> None \/ rcWriteErr (h a) <> None))) ->
    snd (rcLoop sp (a :: rest) (snd (rcLoop sp rest h))) n
    = snd (rcLoop sp rest h) n).
  { intros Hcase. rewrite rcLoop_snd_cons.
    rewrite (rcLoop_frame sp rest h a Ha).
    destruct (rcPresent (h a)); [|apply IH].
    destruct (rcReadErr (h a)); [apply IH|].
    destruct (strings.Contains (rcContent (h a)) sp);
      [destruct Hcase as [?|[?|[? _]]]; congruence|].
    destruct (rcOpenErr (h a)); [apply IH|].
    destruct (rcWriteErr (h a)); [apply IH|].
    destruct Hcase as [?|[?|[_ [?|?]]]]; congruence. }
  destruct (rcPresent (h a)) eqn:Ep; [|apply Hskip; auto].
  destruct (rcReadErr (h a)) eqn:Er;
    [apply Hskip; right; left; discriminate|].
  destruct (strings.Contains (rcContent (h a)) sp) eqn:Ec.
  { rewrite rcLoop_snd_cons, Ep, Er, Ec. reflexivity. }
  destruct (rcOpenErr (h a)) eqn:Eo;
    [apply Hskip; right; right; split; [reflexivity | left; discriminate]|].
  destruct (rcWriteErr (h a)) eqn:Ew;
    [apply Hskip; right; right; split; [reflexivity | right; discriminate]|].
  set (h1 := update h a (rcAppend (h a) (sourceCmd sp))).
  assert (H1 : h1 a = rcAppend (h a) (sourceCmd sp)).
  { unfold h1, update. rewrite String.eqb_refl. reflexivity. }
  rewrite rcLoop_snd_cons, H1. cbn [rcPresent rcReadErr rcContent rcAppend].
  rewrite Ep, Er, Contains_sourceCmd. reflexivity.
Qed.

Lemma occurs_nl_endl (a b : string) : occurs nl (a ++ endl b) = true.
Proof.
  unfold endl. rewrite !occurs_append. simpl. rewrite !orb_true_r. reflexivity.
Qed.

Lemma occurs_nl_endl_first (b c : string) : occurs nl (endl b ++ c) = true.
Proof.
  unfold endl. rewrite !occurs_append. simpl. rewrite orb_true_r. reflexivity.
Qed.

Lemma addFolder_stdout (getwd : result string) (f : File) :
  stdout (fst (addFolder getwd f)) = ""
  \/ occurs nl (stdout (fst (addFolder getwd f))) = true.
Proof.
  unfold addFolder, WriteString.
  destruct getwd as [p|e]; [|left; reflexivity].
  destruct (readFolderList f) as [folders|e]; [|left; reflexivity].
  destruct (alreadyListed folders p); [right; apply occurs_nl_endl|].
  destruct (appendErr f); [left; reflexivity|].
  destruct (writeErr f); [left; reflexivity|].
  right. apply occurs_nl_endl.
Qed.

Lemma listFolders_stdout (f : File) :
  stdout (listFolders f) = "" \/ occurs nl (stdout (listFolders f)) = true.
Proof.
  unfold listFolders.
  destruct (readFolderList f) as [folders|e]; [|left; reflexivity].
  destruct (len folders =? 0); right; cbn [stdout printed].
  - apply (occurs_nl_endl "").
  - apply occurs_nl_endl_first.
Qed.

Lemma removeFolder_stdout (f : File) (arg : string) :
  stdout (fst (removeFolder f arg)) = ""
  \/ occurs nl (stdout (fst (removeFolder f arg))) = true.
Proof.
  unfold removeFolder.
  destruct (readFolderList f) as [folders|e]; [|left; reflexivity].
  destruct (len folders =? 0); [right; apply (occurs_nl_endl "")|].
  cbv zeta. destruct (indexToRemove folders arg =? -1); [left; reflexivity|].
  destruct (index folders (indexToRemove folders arg));
    [|left; reflexivity].
  destruct (Create f); [|left; reflexivity].
  destruct (writeLoop _ _) as [[e|] f1]; [left; reflexivity|].
  right. apply occurs_nl_endl.
Qed.

Section SetupFacts.
Variable Join : string -> string -> string.

Lemma setupJumper_written (sys : System) (configDir homeDir : string) :
  writeFileErr sys = None ->
  setupJumper Join sys configDir homeDir
  = (mkProcess
       (fst (fst (rcLoop (Join configDir "jumper.sh")
                         [".bashrc"; ".bash_aliases"] (home sys)))
        ++ endl "Setup complete! Please restart your shell or run:"
        ++ endl ("source " ++ Join configDir "jumper.sh"))
       (snd (fst (rcLoop (Join configDir "jumper.sh")
                         [".bashrc"; ".bash_aliases"] (home sys))))
       0,
     setHome (setScript sys jumperScript)
       (snd (rcLoop (Join configDir "jumper.sh")
                    [".bashrc"; ".bash_aliases"] (home sys)))).
Proof.
  intros Hw. unfold setupJumper. rewrite Hw. cbn [home setScript].
  destruct (rcLoop _ _ _) as [[out err] h]. reflexivity.
Qed.

Lemma setupJumper_stdout (sys : System) (configDir homeDir : string) :
  stdout (fst (setupJumper Join sys configDir homeDir)) = ""
  \/ occurs nl (stdout (fst (setupJumper Join sys configDir homeDir))) = true.
Proof.
  destruct (writeFileErr sys) as [e|] eqn:Hw.
  - left. unfold setupJumper. rewrite Hw. reflexivity.
  - right. rewrite (setupJumper_written _ _ _ Hw). cbn [fst stdout].
    rewrite occurs_append, occurs_nl_endl_first. apply orb_true_r.
Qed.

Lemma rcNames_NoDup : NoDup [".bashrc"; ".bash_aliases"].
Proof.
  repeat constructor; simpl; intuition discriminate.
Qed.

(** X13 (setup twice).  A second run of [setupJumper] changes nothing
    that the first run has not already changed: the shell init files, the
    script and the config file are as the first run left them; the source
    line is never appended a second time. *)
Theorem setup_idempotent (sys : System) (configDir homeDir : string) :
  let once := snd (setupJumper Join sys configDir homeDir) in
  let twice := snd (setupJumper Join once configDir homeDir) in
  (forall name, home twice name = home once name)
  /\ script twice = script once
  /\ config twice = config once.
Proof.
  intros once twice. subst once twice.
  destruct (writeFileErr sys) as [e|] eqn:Hw.
  - assert (E : setupJumper Join sys configDir homeDir
                = (die ("Error creating jumper.sh: " ++ endl e), sys)).
    { unfold setupJumper. rewrite Hw. reflexivity. }
    rewrite E. cbn [snd]. rewrite E. cbn [snd]. auto.
  - rewrite (setupJumper_written sys _ _ Hw). cbn [snd].
    rewrite setupJumper_written by exact Hw.
    cbn [snd home setHome setScript script config]. split; [|split; reflexivity].
    intros name. apply rcLoop_idempotent. exact rcNames_NoDup.
Qed.


(** X15 (.bashrc comes first).  When [.bashrc] is present and readable,
    and either mentions the script path already or can be appended to,
    [setupJumper] leaves every other file of the home directory, and
    [.bash_aliases] in particular, as it was. *)
Theorem setup_bashrc_first (sys : System) (configDir homeDir : string) :
  rcPresent (home sys ".bashrc") = true ->
  rcReadErr (home sys ".bashrc") = None ->
  strings.Contains (rcContent (home sys ".bashrc"))
                   (Join configDir "jumper.sh") = true
  \/ (rcOpenErr (home sys ".bashrc") = None
      /\ rcWriteErr (home sys ".bashrc") = None) ->
  forall n, n <> ".bashrc" ->
            home (snd (setupJumper Join sys configDir homeDir)) n = home sys n.
Proof.
  intros Hp Hr Huse n Hn.
  destruct (writeFileErr sys) as [e|] eqn:Hw.
  { unfold setupJumper. rewrite Hw. reflexivity. }
  rewrite (setupJumper_written _ _ _ Hw). cbn [snd home setHome].
  rewrite rcLoop_snd_cons, Hp, Hr.
  destruct (strings.Contains _ _) eqn:Ec; [reflexivity|].
  destruct Huse as [Hc | [Ho Hwr]]; [congruence|].
  rewrite Ho, Hwr. unfold update.
  apply String.eqb_neq in Hn. rewrite Hn. reflexivity.
Qed.
End SetupFacts.


Lemma setup_bashrc_first_witness :
  home (snd (setupJumper slashJoin
               (setHome (freshSystem "/tmp")
                  (fun _ => mkRc true "alias ll=ls" None None None))
               "/home/u/.jumper" "/home/u")) ".bash_aliases"
  = mkRc true "alias ll=ls" None None None.
Proof.
  apply (setup_bashrc_first slashJoin
           (setHome (freshSystem "/tmp")
              (fun _ => mkRc true "alias ll=ls" None None None))
           "/home/u/.jumper" "/home/u").
  - reflexivity.
  - reflexivity.
  - right. split; reflexivity.
  - discriminate.
Defined.

Lemma readFolderList_truncated (f : File) :
  openErr f = None -> readFolderList (setContents f "") = Ok [].
Proof.
  intros Ho. unfold readFolderList. cbn [openErr setContents contents].
  rewrite Ho. reflexivity.
Qed.

Lemma jumpIn_nil (arg : string) : jumpIn [] arg = silentExit.
Proof.
  unfold jumpIn. destruct (strconv.Atoi arg) as [n|]; [|reflexivity].
  destruct (Z.ltb_spec 0 n); [|reflexivity].
  destruct (Z.leb_spec n (len (@nil string))); [|reflexivity].
  unfold len in *. simpl in *. lia.
Qed.

Section MainFacts.
Variable Join : string -> string -> string.

(** [main] once the home directory is known and the config directory and
    file are in place. *)
Lemma main_dispatch (sys : System) (homeDir cmd : string) (rest : list string) :
  userHomeDir sys = Ok homeDir ->
  mkdirAllErr sys = None ->
  configPresent sys = true ->
  main Join sys (cmd :: rest)
  = let sys1 := setConfig sys (config sys) in
    if String.eqb cmd "add" then
      onConfig sys1 (addFolder (workingDir sys1) (config sys))
    else if String.eqb cmd "list" then (listFolders (config sys), sys1)
    else if String.eqb cmd "setup" then
      setupJumper Join sys1 (Join homeDir configDirName) homeDir
    else if String.eqb cmd "remove" then
      match rest with
      | [] => (die (endl "Usage: jumper remove <folder-name-or-number>"), sys1)
      | arg :: _ => onConfig sys1 (removeFolder (config sys) arg)
      end
    else (jumpToFolder (config sys) cmd, sys1).
Proof.
  intros Hh Hm Hp. unfold main. rewrite Hh, Hm, Hp. reflexivity.
Qed.

Lemma main_creates (sys : System) (homeDir cmd : string) (rest : list string) :
  userHomeDir sys = Ok homeDir ->
  mkdirAllErr sys = None ->
  configPresent sys = false ->
  createErr (config sys) = None ->
  main Join sys (cmd :: rest)
  = main Join (setConfig sys (setContents (config sys) "")) (cmd :: rest).
Proof.
  intros Hh Hm Hp Hc. unfold main, Create.
  cbn [userHomeDir mkdirAllErr configPresent config setConfig workingDir].
  rewrite Hh, Hm, Hp, Hc. reflexivity.
Qed.

(** X16 (first run).  On a machine where the home directory is known,
    the config directory can be made and the config file does not exist
    yet but can be created and opened, [main] creates the file empty
    before it runs the verb: [list] prints the guidance message and exits
    0, [remove] with a token prints that there are no folders and exits 0,
    and a jump token prints nothing and exits 1. *)
Theorem first_run (sys : System) (homeDir : string) (rest : list string) :
  userHomeDir sys = Ok homeDir ->
  mkdirAllErr sys = None ->
  configPresent sys = false ->
  createErr (config sys) = None ->
  openErr (config sys) = None ->
  let created := setConfig sys (setContents (config sys) "") in
  main Join sys ("list" :: rest)
  = (mkProcess
       (endl ("No folders in jump list. "
              ++ "Use 'jumper add' to add the current folder.")) "" 0,
     created)
  /\ (forall arg,
         main Join sys ("remove" :: arg :: rest)
         = (mkProcess (endl "No folders in jump list.") "" 0, created))
  /\ (forall cmd,
         cmd <> "add" -> cmd <> "list" -> cmd <> "setup" -> cmd <> "remove" ->
         main Join sys (cmd :: rest) = (mkProcess "" "" 1, created)).
Proof.
  intros Hh Hm Hp Hc Ho created. subst created.
  pose proof (readFolderList_truncated _ Ho) as Hr.
  split; [|split].
  - rewrite (main_creates _ _ _ _ Hh Hm Hp Hc).
    rewrite (main_dispatch _ homeDir) by (try reflexivity; assumption).
    cbn [String.eqb Ascii.eqb Bool.eqb config setConfig].
    unfold listFolders. rewrite Hr. reflexivity.
  - intros arg. rewrite (main_creates _ _ _ _ Hh Hm Hp Hc).
    rewrite (main_dispatch _ homeDir) by (try reflexivity; assumption).
    cbn [String.eqb Ascii.eqb Bool.eqb config setConfig].
    unfold onConfig, removeFolder. rewrite Hr. reflexivity.
  - intros cmd H1 H2 H3 H4. rewrite (main_creates _ _ _ _ Hh Hm Hp Hc).
    rewrite (main_dispatch _ homeDir) by (try reflexivity; assumption).
    apply String.eqb_neq in H1, H2, H3, H4. rewrite H1, H2, H3, H4.
    cbn [config setConfig]. unfold jumpToFolder.
    rewrite Hr, jumpIn_nil. reflexivity.
Qed.

(** X17 (an unrecognised first argument is a jump token).  With the home
    directory known and the config directory and file in place, a first
    argument other than [add], [list], [setup] and [remove] makes [main]
    run the jump on it: the outcome is that of [jumpToFolder], any further
    argument is ignored, and the config file is left as it was. *)
Theorem main_default_is_jump
  (sys : System) (homeDir cmd : string) (rest : list string) :
  userHomeDir sys = Ok homeDir ->
  mkdirAllErr sys = None ->
  configPresent sys = true ->
  cmd <> "add" -> cmd <> "list" -> cmd <> "setup" -> cmd <> "remove" ->
  fst (main Join sys (cmd :: rest)) = jumpToFolder (config sys) cmd
  /\ config (snd (main Join sys (cmd :: rest))) = config sys
  /\ home (snd (main Join sys (cmd :: rest))) = home sys
  /\ script (snd (main Join sys (cmd :: rest))) = script sys.
Proof.
  intros Hh Hm Hp H1 H2 H3 H4.
  rewrite (main_dispatch _ homeDir) by assumption.
  apply String.eqb_neq in H1, H2, H3, H4. rewrite H1, H2, H3, H4.
  cbn. auto.
Qed.

(** X18 (reserved words).  The four verbs are recognised before any
    token: when the first argument is [add], [list], [setup] or [remove],
    what [main] writes to standard output is never one of the stored
    paths, so an entry whose base name is one of these words cannot be
    reached by that name. *)
Theorem reserved_words
  (sys : System) (cmd : string) (rest folders : list string) (p : string) :
  cmd = "add" \/ cmd = "list" \/ cmd = "setup" \/ cmd = "remove" ->
  readFolderList (config sys) = Ok folders ->
  In p folders ->
  stdout (fst (main Join sys (cmd :: rest))) <> p.
Proof.
  intros Hcmd Hr Hin.
  destruct (loaded_entries _ _ Hr) as [Ht _].
  rewrite Forall_forall in Ht. destruct (Ht p Hin) as [Hne [Hnl _]].
  assert (G : stdout (fst (main Join sys (cmd :: rest))) = ""
              \/ occurs nl (stdout (fst (main Join sys (cmd :: rest)))) = true).
  { unfold main.
    destruct (userHomeDir sys) as [homeDir|e]; [|left; reflexivity].
    destruct (mkdirAllErr sys); [left; reflexivity|].
    destruct (if configPresent sys then Ok (config sys)
              else Create (config sys)) as [f|e]; [|left; reflexivity].
    destruct Hcmd as [-> | [-> | [-> | ->]]];
      cbn [String.eqb Ascii.eqb Bool.eqb].
    - apply addFolder_stdout.
    - apply listFolders_stdout.
    - apply setupJumper_stdout.
    - destruct rest as [|arg rest']; [left; reflexivity|].
      apply removeFolder_stdout. }
  intros E. rewrite E in G. destruct G as [G|G]; congruence.
Qed.

(** X19 (usage errors).  Without a verb, and for [remove] without a
    token, [main] exits with status 1 and writes nothing to standard
    output, whatever the state of the machine; a config file that exists
    is left as it was, and one that does not exist has nevertheless been
    created, empty, when the checks before the dispatch succeed. *)
Theorem main_usage (sys : System) (args : list string) :
  args = [] \/ args = ["remove"] ->
  exitCode (fst (main Join sys args)) = 1
  /\ stdout (fst (main Join sys args)) = ""
  /\ (configPresent sys = true ->
      config (snd (main Join sys args)) = config sys)
  /\ (forall homeDir,
         userHomeDir sys = Ok homeDir ->
         mkdirAllErr sys = None ->
         configPresent sys = false ->
         createErr (config sys) = None ->
         snd (main Join sys args)
         = setConfig sys (setContents (config sys) "")).
Proof.
  intros Hargs. unfold main, Create.
  destruct (userHomeDir sys) as [homeDir|e].
  2:{ repeat split; auto. intros; discriminate. }
  destruct (mkdirAllErr sys).
  { repeat split; auto. intros; discriminate. }
  destruct (configPresent sys).
  - destruct Hargs as [->| ->]; cbn; repeat split; auto;
      intros; discriminate.
  - destruct (createErr (config sys)).
    + repeat split; auto; intros; discriminate.
    + destruct Hargs as [->| ->]; cbn; repeat split; auto;
        intros; discriminate.
Qed.
End MainFacts.

Lemma first_run_witness :
  main slashJoin (freshSystem "/tmp") ["list"]
  = (mkProcess
       (endl ("No folders in jump list. "
              ++ "Use 'jumper add' to add the current folder.")) "" 0,
     setConfig (freshSystem "/tmp") (file "")).
Proof.
  exact (proj1 (first_run slashJoin (freshSystem "/tmp") "/home/u" []
                  eq_refl eq_refl eq_refl eq_refl eq_refl)).
Defined.

Lemma main_default_is_jump_witness :
  fst (main slashJoin
         (setConfig (freshSystem "/tmp") (file (endl "/a/b" ++ endl "/c/d")))
         ["d"; "ignored"])
  = mkProcess "/c/d" "" 0.
Proof.
  refine (proj1 (main_default_is_jump slashJoin
                   (setConfig (freshSystem "/tmp")
                      (file (endl "/a/b" ++ endl "/c/d")))
                   "/home/u" "d" ["ignored"]
                   eq_refl eq_refl eq_refl _ _ _ _)); discriminate.
Defined.

Lemma reserved_words_witness :
  stdout (fst (main slashJoin
                 (setConfig (freshSystem "/tmp") (file (endl "/srv/list")))
                 ["list"]))
  <> "/srv/list".
Proof.
  apply (reserved_words slashJoin
           (setConfig (freshSystem "/tmp") (file (endl "/srv/list")))
           "list" [] ["/srv/list"] "/srv/list").
  - right. left. reflexivity.
  - reflexivity.
  - left. reflexivity.
Defined.

Lemma main_usage_witness :
  exitCode (fst (main slashJoin (freshSystem "/tmp") ["remove"])) = 1.
Proof.
  destruct (main_usage slashJoin (freshSystem "/tmp") ["remove"]) as [H _].
  - right. reflexivity.
  - exact H.
Defined.
